(** * image-builder: the artifact generator of [main.py]

    A shallow embedding of [main.py] (Dockerfile / cloudbuild.yaml /
    build-script generation for Ollama models, and the optional
    [gcloud builds submit] loop), and the properties its specification
    states about it.

    Python strings are sequences of Unicode code points; they are modelled
    as lists of code points ([N]).  The file system, standard output and the
    launched processes form an explicit [world] that the effectful functions
    thread through a state-and-exception monad. *)

From Stdlib Require Import NArith ZArith String Ascii List Lia.
From stdpp Require Import base option list gmap.

(** ** Python strings *)

Abbreviation pystr := (list N).

(** A literal of the source, character by character. *)
Definition str (s : string) : pystr := N_of_ascii <$> list_ascii_of_string s.
Arguments str s%_string.

Definition colon : N := 58.
Definition dot : N := 46.
Definition hyphen : N := 45.
Definition slash : N := 47.
Definition comma : N := 44.
Definition nl : pystr := [10%N].
Definition dq : pystr := [34%N].

(** [str.isalnum] on the ASCII range: digits and letters only. *)
Definition ascii_isalnum (c : N) : bool :=
  ((48 <=? c) && (c <=? 57) || (65 <=? c) && (c <=? 90) || (97 <=? c) && (c <=? 122))%N.

(** [str.isspace]: the white-space code points of CPython's Unicode table. *)
Definition isspace (c : N) : bool :=
  ((9 <=? c) && (c <=? 13) || (28 <=? c) && (c <=? 32)
   || (c =? 133) || (c =? 160) || (c =? 5760)
   || (8192 <=? c) && (c <=? 8202) || (c =? 8232) || (c =? 8233)
   || (c =? 8239) || (c =? 8287) || (c =? 12288))%N.

(** [s.replace(old, new)] for one-character [old] and [new], the only use
    the program makes of it. *)
Definition replace (old new : N) (s : pystr) : pystr :=
  (λ c, if (c =? old)%N then new else c) <$> s.

(** [s.split(sep)] for a one-character separator: never an empty list. *)
Fixpoint split (sep : N) (s : pystr) : list pystr :=
  match s with
  | [] => [[]]
  | c :: r =>
      if (c =? sep)%N then [] :: split sep r
      else match split sep r with
           | h :: t => (c :: h) :: t
           | [] => [[c]]
           end
  end.

Fixpoint lstrip (s : pystr) : pystr :=
  match s with
  | c :: r => if isspace c then lstrip r else s
  | [] => []
  end.

Definition rstrip (s : pystr) : pystr := reverse (lstrip (reverse s)).

(** [s.strip()] *)
Definition strip (s : pystr) : pystr := rstrip (lstrip s).

(** [s.endswith(suffix)] *)
Definition endswith (s suffix : pystr) : bool :=
  bool_decide (suffix `suffix_of` s).

(** [os.path.join(a, b)] of [posixpath], two arguments: an absolute [b]
    replaces [a]; otherwise the two are glued with one slash, unless [a] is
    empty or already ends with one. *)
Definition path_join (a b : pystr) : pystr :=
  if match b with c :: _ => (c =? slash)%N | [] => false end then b
  else match last a with
       | None => a ++ b
       | Some d => if (d =? slash)%N then a ++ b else a ++ [slash] ++ b
       end.

(** [os.path.basename(p)]: what follows the last slash. *)
Fixpoint basename (p : pystr) : pystr :=
  match p with
  | [] => []
  | c :: r => if bool_decide (slash ∈ r) then basename r
              else if (c =? slash)%N then r else p
  end.

(** ** The world: files, standard output, launched processes *)

Record file := File { content : pystr; mode : N }.

(** The file-system operations the program performs. *)
Inductive fsop :=
| OpMakedirs (p : pystr)                (* os.makedirs(p, exist_ok=True) *)
| OpOpenW (p : pystr)                   (* open(p, "w") *)
| OpWrite (p : pystr) (data : pystr)    (* f.write(data), f opened on p *)
| OpChmod (p : pystr) (m : N).          (* os.chmod(p, m) *)

(** The file an operation touches, if it touches one. *)
Definition op_file (op : fsop) : option pystr :=
  match op with
  | OpMakedirs _ => None
  | OpOpenW p | OpWrite p _ | OpChmod p _ => Some p
  end.

(** [files] are keyed by the path the program names them with; [dirs] are
    the directories [os.makedirs] was asked for; [stdout] has one entry per
    [print]; [procs] the argument vectors handed to [subprocess.run];
    [oplog] every file-system operation that succeeded, oldest first. *)
Record world := World {
  files : gmap pystr file;
  dirs : gset pystr;
  stdout : list pystr;
  procs : list (list pystr);
  oplog : list fsop
}.

Definition empty_world : world := World ∅ ∅ [] [] [].

Inductive exn :=
| OSError (errno : N)
| CalledProcessError (returncode : Z) (cmd : list pystr).

(** How a launched command ends: it ran and exited with a status, or it
    could not be started at all (no such executable, no permission). *)
Inductive proc_result :=
| Exited (returncode : Z)
| SpawnFailed (errno : N).

(** What the program takes from its platform: the Unicode table behind
    [str.isalnum] beyond ASCII, the process umask, which file-system
    operations the operating system refuses (and with which errno), how the
    external command ends, and how an exception prints. *)
Class Platform := {
  unicode_isalnum : N → bool;
  umask : N;
  fs_fault : fsop → world → option N;
  proc_run : list pystr → world → proc_result;
  exn_str : exn → pystr
}.

(** [c.isalnum()] for a one-character string. *)
Definition isalnum `{Platform} (c : N) : bool :=
  if (c <? 128)%N then ascii_isalnum c else unicode_isalnum c.

(** The effect of an operation that succeeds. *)
Definition apply_op `{Platform} (op : fsop) (w : world) : world :=
  let fs := files w in
  let fs' :=
    match op with
    | OpMakedirs _ => fs
    | OpOpenW p =>
        <[p := File [] (match fs !! p with
                        | Some f => mode f
                        | None => N.ldiff 438 umask      (* 0o666 & ~umask *)
                        end)]> fs
    | OpWrite p data => alter (λ f, File (content f ++ data) (mode f)) p fs
    | OpChmod p m => alter (λ f, File (content f) m) p fs
    end in
  let ds' := match op with OpMakedirs p => {[p]} ∪ dirs w | _ => dirs w end in
  World fs' ds' (stdout w) (procs w) (oplog w ++ [op]).

(** ** The state-and-exception monad *)

Inductive result (A : Type) :=
| Ok (a : A)
| Raise (e : exn).
Arguments Ok {A} a.
Arguments Raise {A} e.

Definition M (A : Type) : Type := world → result A * world.

Definition ret {A} (a : A) : M A := λ w, (Ok a, w).

Definition bind {A B} (m : M A) (k : A → M B) : M B :=
  λ w, match m w with
       | (Ok a, w') => k a w'
       | (Raise e, w') => (Raise e, w')
       end.

Declare Scope py_scope.
Delimit Scope py_scope with py.
Notation "'let*' x ':=' c1 'in' c2" := (bind c1 (λ x, c2))
  (at level 10, x name, c1 at level 99, c2 at level 200, only parsing) : py_scope.
Notation "c1 ;;; c2" := (bind c1 (λ _, c2))
  (at level 100, c2 at level 200, right associativity, only parsing) : py_scope.
Local Open Scope py_scope.

(** [for x in xs: body], threading the loop's local state [acc]. *)
Fixpoint for_in {A S} (xs : list A) (body : S → A → M S) (acc : S) : M S :=
  match xs with
  | [] => ret acc
  | x :: rest => let* acc' := body acc x in for_in rest body acc'
  end.

(** [try: body / except subprocess.CalledProcessError as e: handler(e)];
    any other exception passes through. *)
Definition try_except_CalledProcessError {A} (body : M A) (handler : exn → M A) : M A :=
  λ w, match body w with
       | (Raise (CalledProcessError rc cmd), w') => handler (CalledProcessError rc cmd) w'
       | r => r
       end.

(** One file-system operation: refused by the platform it raises [OSError]
    and leaves the world as it was, otherwise it takes effect. *)
Definition fs_do `{Platform} (op : fsop) : M unit :=
  λ w, match fs_fault op w with
       | Some errno => (Raise (OSError errno), w)
       | None => (Ok tt, apply_op op w)
       end.

(** [print(line)]: one more entry on standard output; writing to it is taken
    to succeed. *)
Definition print (line : pystr) : M unit :=
  λ w, (Ok tt, World (files w) (dirs w) (stdout w ++ [line]) (procs w) (oplog w)).

(** [subprocess.run(args, check=True)] *)
Definition subprocess_run_check `{Platform} (args : list pystr) : M unit :=
  λ w, let w' := World (files w) (dirs w) (stdout w) (procs w ++ [args]) (oplog w) in
       match proc_run args w with
       | Exited 0 => (Ok tt, w')
       | Exited rc => (Raise (CalledProcessError rc args), w')
       | SpawnFailed errno => (Raise (OSError errno), w')
       end.

(** ** The templates

    Each Jinja2 template is embedded as the function that renders it:
    [{{ x }}] is the string [x], [{% if xs %}] tests that the list is not
    empty, [{% for x in xs %}] repeats its body, everything else is copied.
    [Template] drops the single newline that ends the template text. *)

Definition lines (ls : list pystr) : pystr := foldr (λ l acc, l ++ nl ++ acc) [] ls.

(** [DOCKERFILE_TEMPLATE] *)
Definition render_dockerfile (model : pystr) (additional_models : list pystr) : pystr :=
  lines [ str "FROM ollama/ollama";
          str "ENV HOME /root";
          str "WORKDIR /";
          str "ENV OLLAMA_KEEP_ALIVE -1";
          str "RUN ollama serve & sleep 10 && ollama pull " ++ model ]
  ++ match additional_models with
     | [] => []
     | _ => concat ((λ additional_model,
                      nl ++ str "RUN ollama serve & sleep 10 && ollama pull " ++ additional_model)
                    <$> additional_models)
     end
  ++ nl
  ++ str "ENTRYPOINT [" ++ dq ++ str "ollama" ++ dq ++ str "," ++ dq ++ str "serve" ++ dq ++ str "]".

(** [CLOUDBUILD_TEMPLATE] *)
Definition render_cloudbuild (model_id : pystr) : pystr :=
  lines [ str "steps:";
          str " # Build step";
          str " - name: gcr.io/cloud-builders/docker";
          str "   args:";
          str "    - build";
          str "    - " ++ dq ++ str "-t" ++ dq;
          str "    - gcr.io/$PROJECT_ID/ollama:" ++ model_id;
          str "    - " ++ dq ++ str "-f" ++ dq;
          str "    - Dockerfile-" ++ model_id;
          str "    - .";
          str "# Push step";
          str " - name: gcr.io/cloud-builders/docker";
          str "   args:";
          str "    - push";
          str "    - gcr.io/$PROJECT_ID/ollama:" ++ model_id;
          str "# Image outputs";
          str "images:";
          str " - gcr.io/$PROJECT_ID/ollama:" ++ model_id;
          str "# Build options";
          str "options:";
          str "  machineType: E2_HIGHCPU_8" ]
  ++ str "  diskSizeGb: 200  # Increased disk space otherwise the model built on cloud build exceeds default space".

(** [BUILD_SCRIPT_TEMPLATE] *)
Definition render_build_script (build_dir model_id : pystr) : pystr :=
  lines [ str "#!/bin/bash";
          str "set -x";
          str "pushd " ++ build_dir;
          str "gcloud builds submit --config " ++ model_id ++ str "-cloudbuild.yaml" ]
  ++ str "popd".

(** ** The program *)

Section Program.
Context `{Platform}.

(** [get_model_id]: colons and dots become hyphens, then every character
    that is not alphanumeric becomes a hyphen. *)
Definition get_model_id (model_name : pystr) : pystr :=
  concat ((λ c, if isalnum c then [c] else str "-")
          <$> replace dot hyphen (replace colon hyphen model_name)).

(** The three artifact paths of a model. *)
Definition dockerfile_path (build_dir model_id : pystr) : pystr :=
  path_join build_dir (str "Dockerfile-" ++ model_id).
Definition cloudbuild_path (build_dir model_id : pystr) : pystr :=
  path_join build_dir (model_id ++ str "-cloudbuild.yaml").
Definition build_script_path (build_dir model_id : pystr) : pystr :=
  path_join build_dir (str "build-" ++ model_id ++ str ".sh").
Definition build_all_path (build_dir : pystr) : pystr :=
  path_join build_dir (str "build-all.sh").

(** [with open(path, "w") as f: f.write(data)] *)
Definition write_file (path data : pystr) : M unit :=
  fs_do (OpOpenW path) ;;; fs_do (OpWrite path data).

(** The body of the [for model in models] loop of [generate_files]; the
    loop's state is the list [build_scripts]. *)
Definition generate_model (build_dir : pystr) (generate_build_script : bool)
    (build_scripts : list pystr) (model : pystr) : M (list pystr) :=
  let model_id := get_model_id model in
  print (str "Generating files for model: " ++ model ++ str " (ID: " ++ model_id ++ str ")") ;;;
  let dockerfile_content := render_dockerfile model [] in
  let cloudbuild_content := render_cloudbuild model_id in
  write_file (dockerfile_path build_dir model_id) dockerfile_content ;;;
  write_file (cloudbuild_path build_dir model_id) cloudbuild_content ;;;
  if generate_build_script then
    let build_script_content := render_build_script build_dir model_id in
    let path := build_script_path build_dir model_id in
    write_file path build_script_content ;;;
    fs_do (OpChmod path 493) ;;;                                  (* 0o755 *)
    ret (build_scripts ++ [path])
  else ret build_scripts.

(** The master script: opened once, the header and then one line per
    script written to it, then made executable. *)
Definition write_build_all (build_dir : pystr) (build_scripts : list pystr) : M unit :=
  let path := build_all_path build_dir in
  fs_do (OpOpenW path) ;;;
  fs_do (OpWrite path (str "#!/bin/bash" ++ nl ++ str "set -e" ++ nl ++ nl)) ;;;
  for_in build_scripts (λ _ script, fs_do (OpWrite path (script ++ nl))) tt ;;;
  fs_do (OpChmod path 493).

Definition generate_files (models : list pystr) (build_dir : pystr)
    (generate_build_script : bool) : M unit :=
  fs_do (OpMakedirs build_dir) ;;;
  let* build_scripts := for_in models (generate_model build_dir generate_build_script) [] in
  if generate_build_script && negb (bool_decide (build_scripts = [])) then
    write_build_all build_dir build_scripts
  else ret tt.

(** The argument vector of the build submission. *)
Definition gcloud_cmd (build_dir model : pystr) : list pystr :=
  [ str "gcloud"; str "builds"; str "submit"; str "--config";
    cloudbuild_path build_dir (get_model_id model); build_dir ].

(** The body of the loop of [submit_builds]. *)
Definition submit_model (build_dir : pystr) (_ : unit) (model : pystr) : M unit :=
  let model_id := get_model_id model in
  print (str "Submitting build for model: " ++ model ++ str " (ID: " ++ model_id ++ str ")") ;;;
  try_except_CalledProcessError
    (subprocess_run_check (gcloud_cmd build_dir model) ;;;
     print (str "Build submitted successfully for " ++ model))
    (λ e, print (str "Error submitting build for " ++ model ++ str ": " ++ exn_str e)).

Definition submit_builds (models : list pystr) (build_dir : pystr) : M unit :=
  for_in models (submit_model build_dir) tt.

(** [models = [model.strip() for model in models_str.split(",")]] *)
Definition parse_models (models_str : pystr) : list pystr :=
  strip <$> split comma models_str.

(** [main] called with its four parameters (the command line only supplies
    their values). *)
Definition main (models_str build_dir : pystr) (submit no_build_scripts : bool) : M unit :=
  let models := parse_models models_str in
  generate_files models build_dir (negb no_build_scripts) ;;;
  if submit then submit_builds models build_dir
  else
    print (nl ++ str "Files generated successfully. To submit builds, run:") ;;;
    print (str "  " ++ path_join build_dir (str "build-all.sh")) ;;;
    print (str "Or specify --submit when running this script").

End Program.

(** ** Sample platforms *)

(** A platform over the ASCII table and umask 022, with the given
    file-system faults and command outcomes. *)
Definition platform_with (fault : fsop → world → option N)
    (run : list pystr → world → proc_result) : Platform :=
  {| unicode_isalnum := λ _, false;
     umask := 18;
     fs_fault := fault;
     proc_run := run;
     exn_str := λ e, match e with
                     | CalledProcessError _ _ => str "non-zero exit status"
                     | OSError _ => str "OSError"
                     end |}.

(** Nothing fails. *)
Definition quiet : Platform := platform_with (λ _ _, None) (λ _ _, Exited 0).

(** [gcloud] is not installed: launching it fails with ENOENT. *)
Definition no_gcloud : Platform := platform_with (λ _ _, None) (λ _ _, SpawnFailed 2).

(** Every submitted build is rejected: [gcloud] exits with status 1. *)
Definition rejecting : Platform := platform_with (λ _ _, None) (λ _ _, Exited 1).

(** Opening [path] for writing is refused with EACCES. *)
Definition read_only (path : pystr) : Platform :=
  platform_with (λ op _, match op with
                         | OpOpenW p => if bool_decide (p = path) then Some 13%N else None
                         | _ => None
                         end)
                (λ _ _, Exited 0).

(** The build directory cannot be created (EACCES). *)
Definition no_mkdir : Platform :=
  platform_with (λ op _, match op with OpMakedirs _ => Some 13%N | _ => None end)
                (λ _ _, Exited 0).

(** ** Vocabulary of the statements *)

(** No file-system operation is ever refused. *)
Definition fault_free (P : Platform) : Prop := ∀ op w, @fs_fault P op w = None.

(** Every launched command runs to an exit status. *)
Definition always_spawns (P : Platform) : Prop :=
  ∀ args w, ∃ rc, @proc_run P args w = Exited rc.

(** [sep.join(pieces)] for a one-character separator. *)
Fixpoint join_with (sep : N) (pieces : list pystr) : pystr :=
  match pieces with
  | [] => []
  | [p] => p
  | p :: rest => p ++ sep :: join_with sep rest
  end.

(** Neither the first nor the last character is white space. *)
Definition no_outer_space (s : pystr) : Prop :=
  (∀ c, head s = Some c → isspace c = false) ∧ (∀ c, last s = Some c → isspace c = false).

(** The paths opened for writing, in order. *)
Definition opened (ops : list fsop) : list pystr :=
  omap (λ op, match op with OpOpenW p => Some p | _ => None end) ops.

(** An operation on a file whose name ends in [.sh]. *)
Definition on_sh_file (op : fsop) : bool :=
  match op_file op with
  | Some p => endswith p (str ".sh")
  | None => false
  end.

(** ** The plan of a run

    [generate_files] is a straight-line sequence of operations and prints;
    the operations are listed by [generate_ops], the lines by
    [generate_line]. *)

Definition add_stdout (ls : list pystr) (w : world) : world :=
  World (files w) (dirs w) (stdout w ++ ls) (procs w) (oplog w).

Definition run_ops `{Platform} (ops : list fsop) (w : world) : world :=
  foldl (λ w op, apply_op op w) w ops.

Section Plan.
Context `{P : Platform}.

Definition model_ops (build_dir : pystr) (scripts : bool) (model : pystr) : list fsop :=
  let t := get_model_id model in
  [ OpOpenW (dockerfile_path build_dir t);
    OpWrite (dockerfile_path build_dir t) (render_dockerfile model []);
    OpOpenW (cloudbuild_path build_dir t);
    OpWrite (cloudbuild_path build_dir t) (render_cloudbuild t) ]
  ++ (if scripts
      then [ OpOpenW (build_script_path build_dir t);
             OpWrite (build_script_path build_dir t) (render_build_script build_dir t);
             OpChmod (build_script_path build_dir t) 493 ]
      else []).

Definition build_all_header : pystr := str "#!/bin/bash" ++ nl ++ str "set -e" ++ nl ++ nl.

Definition build_all_ops (build_dir : pystr) (build_scripts : list pystr) : list fsop :=
  [ OpOpenW (build_all_path build_dir);
    OpWrite (build_all_path build_dir) build_all_header ]
  ++ ((λ script, OpWrite (build_all_path build_dir) (script ++ nl)) <$> build_scripts)
  ++ [ OpChmod (build_all_path build_dir) 493 ].

(** The value of [build_scripts] after the loop. *)
Definition script_paths (build_dir : pystr) (scripts : bool) (models : list pystr) : list pystr :=
  if scripts then (λ model, build_script_path build_dir (get_model_id model)) <$> models
  else [].

Definition generate_ops (models : list pystr) (build_dir : pystr) (scripts : bool) : list fsop :=
  OpMakedirs build_dir
  :: (models ≫= model_ops build_dir scripts)
  ++ (match script_paths build_dir scripts models with
      | [] => []
      | paths => build_all_ops build_dir paths
      end).

Definition generate_line (model : pystr) : pystr :=
  str "Generating files for model: " ++ model ++ str " (ID: " ++ get_model_id model ++ str ")".

End Plan.

(** The effect of one operation on the file it touches. *)
Definition file_step `{Platform} (op : fsop) (o : option file) : option file :=
  match op with
  | OpMakedirs _ => o
  | OpOpenW _ => Some (File [] (match o with
                                | Some f => mode f
                                | None => N.ldiff 438 umask
                                end))
  | OpWrite _ data => (λ f, File (content f ++ data) (mode f)) <$> o
  | OpChmod _ m => (λ f, File (content f) m) <$> o
  end.

(** [grows w w' done]: [w'] is [w] after the operations [done], with some
    lines printed in between. *)
Definition grows `{Platform} (w w' : world) (done : list fsop) : Prop :=
  ∃ printed, w' = add_stdout printed (run_ops done w).

(** [follows m ops v]: the computation [m] attempts the operations [ops] in
    order and launches no command.  Either all of them succeed and [m]
    returns [v], or [m] raises the [OSError] of the first operation the
    platform refuses, in the world that operation was attempted in. *)
Definition follows `{Platform} {A} (m : M A) (ops : list fsop) (v : A) : Prop :=
  ∀ w, match m w with
       | (Ok a, w') => a = v ∧ grows w w' ops
       | (Raise e, w') =>
           ∃ done op rest errno,
             ops = done ++ op :: rest ∧ e = OSError errno
             ∧ fs_fault op w' = Some errno ∧ grows w w' done
       end.

(** The world after a submission whose command exited with [rc]. *)
Definition submitted `{Platform} (build_dir model : pystr) (rc : Z) (w : world) : world :=
  World (files w) (dirs w)
    (stdout w
     ++ [ str "Submitting build for model: " ++ model
            ++ str " (ID: " ++ get_model_id model ++ str ")";
          if (rc =? 0)%Z
          then str "Build submitted successfully for " ++ model
          else str "Error submitting build for " ++ model ++ str ": "
                 ++ exn_str (CalledProcessError rc (gcloud_cmd build_dir model)) ])
    (procs w ++ [gcloud_cmd build_dir model])
    (oplog w).

(** What [os.path.join] puts in front of a relative name. *)
Definition join_prefix (a : pystr) : pystr :=
  match last a with
  | None => a
  | Some d => if (d =? slash)%N then a else a ++ [slash]
  end.

(** Closed decidable facts about the literals of the source. *)
Ltac by_decide := apply (bool_decide_unpack _); vm_compute; exact I.




(** ** The sanitizer *)

Section Sanitizer.
Context `{P : Platform}.

Lemma isalnum_colon : isalnum colon = false.
Proof. reflexivity. Qed.

Lemma isalnum_dot : isalnum dot = false.
Proof. reflexivity. Qed.

Lemma isalnum_hyphen : isalnum hyphen = false.
Proof. reflexivity. Qed.

Lemma isalnum_slash : isalnum slash = false.
Proof. reflexivity. Qed.

(** The sanitizer acts character by character. *)
Lemma get_model_id_fmap (s : pystr) :
  get_model_id s = (λ c, if isalnum c then c else hyphen) <$> s.
Proof.
  unfold get_model_id, replace.
  induction s as [|c s IH]; [reflexivity|].
  rewrite !fmap_cons. cbn [concat]. rewrite IH. clear IH.
  destruct (N.eqb_spec c colon) as [->|Hc]; [reflexivity|].
  destruct (N.eqb_spec c dot) as [->|Hd]; [reflexivity|].
  destruct (isalnum c); reflexivity.
Qed.

Lemma get_model_id_chars (s : pystr) :
  Forall (λ c, isalnum c = true ∨ c = hyphen) (get_model_id s).
Proof.
  rewrite get_model_id_fmap. apply Forall_fmap, Forall_forall. intros c _. cbn.
  destruct (isalnum c) eqn:E; [left; exact E | right; reflexivity].
Qed.

(** A character that is neither alphanumeric nor the hyphen is in no token. *)
Lemma get_model_id_excludes (c : N) (s : pystr) :
  isalnum c = false → c ≠ hyphen → c ∉ get_model_id s.
Proof.
  intros Hc Hh Hin.
  pose proof (get_model_id_chars s) as HF.
  rewrite Forall_forall in HF. destruct (HF c Hin) as [E|E]; congruence.
Qed.

Lemma get_model_id_no_dot (s : pystr) : dot ∉ get_model_id s.
Proof. apply get_model_id_excludes; [apply isalnum_dot | discriminate]. Qed.

Lemma get_model_id_no_slash (s : pystr) : slash ∉ get_model_id s.
Proof. apply get_model_id_excludes; [apply isalnum_slash | discriminate]. Qed.

Lemma get_model_id_idem (s : pystr) : get_model_id (get_model_id s) = get_model_id s.
Proof.
  rewrite !get_model_id_fmap, <- list_fmap_compose.
  apply list_fmap_ext. intros _ c _. cbn.
  destruct (isalnum c) eqn:E; [rewrite E; reflexivity|].
  rewrite isalnum_hyphen. reflexivity.
Qed.

End Sanitizer.

(** ** Strings and paths *)

Lemma path_join_relative (a b : pystr) :
  head b ≠ Some slash → path_join a b = join_prefix a ++ b.
Proof.
  intros Hb. unfold path_join, join_prefix.
  destruct b as [|c b].
  - destruct (last a) as [d|]; [destruct (d =? slash)%N|]; rewrite <- ?app_assoc; reflexivity.
  - destruct (N.eqb_spec c slash) as [->|_]; [contradiction Hb; reflexivity|].
    destruct (last a) as [d|]; [destruct (d =? slash)%N|]; rewrite <- ?app_assoc; reflexivity.
Qed.

Lemma path_join_ends (a b : pystr) : ∃ x, path_join a b = x ++ b.
Proof.
  destruct (decide (head b = Some slash)) as [Hb|Hb].
  - exists []. unfold path_join. destruct b as [|c b]; [discriminate|].
    cbn in Hb. injection Hb as ->. reflexivity.
  - exists (join_prefix a). apply path_join_relative, Hb.
Qed.

Lemma path_join_inj (a b1 b2 : pystr) :
  head b1 ≠ Some slash → head b2 ≠ Some slash →
  path_join a b1 = path_join a b2 → b1 = b2.
Proof.
  intros H1 H2. rewrite !path_join_relative by assumption. apply app_inv_head.
Qed.

Lemma head_not_elem (c : N) (s : pystr) : c ∉ s → head s ≠ Some c.
Proof.
  destruct s as [|d s]; [discriminate|].
  intros Hn [= ->]. apply Hn. left.
Qed.

Lemma head_app_ne (c : N) (s t : pystr) :
  c ∉ s → head t ≠ Some c → head (s ++ t) ≠ Some c.
Proof.
  destruct s as [|d s]; [intros _ Ht; exact Ht|].
  intros Hn _ [= ->]. apply Hn. left.
Qed.

Lemma endswith_true (s suffix : pystr) : endswith s suffix = true ↔ suffix `suffix_of` s.
Proof. unfold endswith. apply bool_decide_eq_true. Qed.

Lemma endswith_false (s suffix : pystr) : endswith s suffix = false ↔ ¬ suffix `suffix_of` s.
Proof. unfold endswith. apply bool_decide_eq_false. Qed.

(** A suffix no longer than the tail of a concatenation is a suffix of the tail. *)
Lemma suffix_app_tail (k x y : pystr) :
  length k ≤ length y → k `suffix_of` x ++ y → k `suffix_of` y.
Proof.
  intros Hlen [z Hz].
  assert (Hy : y = drop (length (x ++ y) - length y) (x ++ y)).
  { rewrite length_app. replace (length x + length y - length y) with (length x) by lia.
    rewrite drop_app_length. reflexivity. }
  rewrite Hz in Hy. rewrite length_app in Hy.
  rewrite drop_app_le in Hy by lia.
  exists (drop (length z + length k - length y) z). exact Hy.
Qed.

Lemma endswith_path_join (a b k : pystr) :
  length k ≤ length b → endswith (path_join a b) k = endswith b k.
Proof.
  intros Hlen. destruct (path_join_ends a b) as [x ->].
  destruct (endswith b k) eqn:E.
  - apply endswith_true. apply endswith_true in E. apply suffix_app_r, E.
  - apply endswith_false. apply endswith_false in E. intros Hs. apply E.
    eapply suffix_app_tail; eassumption.
Qed.

Lemma basename_no_slash (p : pystr) : slash ∉ p → basename p = p.
Proof.
  destruct p as [|c r]; [reflexivity|]. intros Hn. cbn.
  rewrite bool_decide_eq_false_2 by (intros Hr; apply Hn; right; exact Hr).
  destruct (N.eqb_spec c slash) as [->|_]; [|reflexivity].
  exfalso. apply Hn. left.
Qed.

Lemma basename_app_slash (x b : pystr) : slash ∉ b → basename (x ++ slash :: b) = b.
Proof.
  intros Hb. induction x as [|c x IH]; cbn.
  - rewrite bool_decide_eq_false_2 by exact Hb. reflexivity.
  - rewrite bool_decide_eq_true_2 by (apply elem_of_app; right; left). exact IH.
Qed.

(** A name without a slash joined to a directory keeps its name. *)
Lemma basename_path_join (a b : pystr) : slash ∉ b → basename (path_join a b) = b.
Proof.
  intros Hb. rewrite path_join_relative by (apply head_not_elem, Hb).
  unfold join_prefix. destruct (last a) as [d|] eqn:El.
  - destruct (N.eqb_spec d slash) as [->|_].
    + apply last_Some in El as [a' ->]. rewrite <- app_assoc. cbn.
      apply basename_app_slash, Hb.
    + rewrite <- app_assoc. cbn. apply basename_app_slash, Hb.
  - apply last_None in El as ->. cbn. apply basename_no_slash, Hb.
Qed.

Lemma join_split (sep : N) (s : pystr) : join_with sep (split sep s) = s.
Proof.
  induction s as [|c s IH]; [reflexivity|]. cbn [split].
  destruct (c =? sep)%N eqn:E.
  - apply N.eqb_eq in E as ->. destruct (split sep s) as [|h t] eqn:Es.
    + cbn in IH. subst s. cbn in Es. discriminate.
    + cbn [join_with]. cbn [app]. f_equal. exact IH.
  - destruct (split sep s) as [|h t] eqn:Es.
    + cbn in IH. subst s. cbn in Es. discriminate.
    + destruct t as [|h' t']; cbn [join_with] in *; subst s; reflexivity.
Qed.

Lemma split_no_sep (sep : N) (s : pystr) : Forall (λ p, sep ∉ p) (split sep s).
Proof.
  induction s as [|c s IH]; cbn [split].
  - constructor; [apply not_elem_of_nil | constructor].
  - destruct (N.eqb_spec c sep) as [->|Hc].
    + constructor; [apply not_elem_of_nil | exact IH].
    + destruct (split sep s) as [|h t].
      * constructor; [|constructor]. intros Hin. apply list_elem_of_singleton in Hin. congruence.
      * inversion IH as [|? ? Hh Ht]; subst. constructor; [|exact Ht].
        intros Hin. apply elem_of_cons in Hin as [->|Hin]; [congruence | exact (Hh Hin)].
Qed.

Lemma split_not_nil (sep : N) (s : pystr) : split sep s ≠ [].
Proof.
  destruct s as [|c s]; cbn [split]; [discriminate|].
  destruct (c =? sep)%N; [discriminate|]. destruct (split sep s); discriminate.
Qed.

(** [lstrip] removes a run of white space and nothing else. *)
Lemma lstrip_spec (s : pystr) :
  ∃ k, s = k ++ lstrip s ∧ Forall (λ c, isspace c = true) k
       ∧ ∀ c, head (lstrip s) = Some c → isspace c = false.
Proof.
  induction s as [|c s (k & Hk & HF & Hh)].
  - exists []. repeat split; [constructor | discriminate].
  - cbn [lstrip]. destruct (isspace c) eqn:E.
    + exists (c :: k). repeat split.
      * cbn. f_equal. exact Hk.
      * constructor; assumption.
      * exact Hh.
    + exists []. repeat split; [constructor|]. intros d [= <-]. exact E.
Qed.

Lemma last_lstrip (s : pystr) (c : N) : last (lstrip s) = Some c → last s = Some c.
Proof.
  destruct (lstrip_spec s) as (k & Hk & _ & _). intros Hl.
  rewrite Hk. destruct (lstrip s) as [|d r] eqn:E; [discriminate|].
  rewrite last_app, Hl. reflexivity.
Qed.

Lemma strip_no_outer_space (s : pystr) : no_outer_space (strip s).
Proof.
  unfold strip, rstrip. split; intros c Hc.
  - rewrite head_reverse in Hc. apply last_lstrip in Hc.
    rewrite last_reverse in Hc.
    destruct (lstrip_spec s) as (_ & _ & _ & Hh). apply Hh, Hc.
  - rewrite last_reverse in Hc.
    destruct (lstrip_spec (reverse (lstrip s))) as (_ & _ & _ & Hh). apply Hh, Hc.
Qed.

(** [strip] removes white space at both ends and nothing else. *)
Lemma strip_spec (s : pystr) :
  ∃ k1 k2, s = k1 ++ strip s ++ k2
           ∧ Forall (λ c, isspace c = true) k1 ∧ Forall (λ c, isspace c = true) k2.
Proof.
  destruct (lstrip_spec s) as (k1 & Hk1 & HF1 & _).
  destruct (lstrip_spec (reverse (lstrip s))) as (k2 & Hk2 & HF2 & _).
  exists k1, (reverse k2). repeat split; [|exact HF1|].
  - unfold strip, rstrip. rewrite <- reverse_app, <- Hk2, reverse_involutive. exact Hk1.
  - apply Forall_forall. intros c Hc. rewrite elem_of_reverse in Hc.
    rewrite Forall_forall in HF2. apply HF2, Hc.
Qed.


Lemma bind_assoc {A B C} (m : M A) (f : A → M B) (g : B → M C) (w : world) :
  bind (bind m f) g w = bind m (λ x, bind (f x) g) w.
Proof. unfold bind. destruct (m w) as [[a|e] w']; reflexivity. Qed.

Lemma bind_ret_l {A B} (a : A) (k : A → M B) (w : world) : bind (ret a) k w = k a w.
Proof. reflexivity. Qed.

(** ** Runs in which no file-system operation fails *)

Section FaultFree.
Context `{P : Platform}.
Hypothesis no_fault : fault_free P.

Lemma fs_do_ok (op : fsop) (w : world) : fs_do op w = (Ok tt, apply_op op w).
Proof. unfold fs_do. rewrite no_fault. reflexivity. Qed.

Lemma add_stdout_nil (w : world) : add_stdout [] w = w.
Proof. destruct w. unfold add_stdout. cbn. rewrite app_nil_r. reflexivity. Qed.

Lemma add_stdout_add (l1 l2 : list pystr) (w : world) :
  add_stdout l2 (add_stdout l1 w) = add_stdout (l1 ++ l2) w.
Proof. unfold add_stdout. cbn. rewrite app_assoc. reflexivity. Qed.

Lemma apply_op_add_stdout (ls : list pystr) (op : fsop) (w : world) :
  apply_op op (add_stdout ls w) = add_stdout ls (apply_op op w).
Proof. reflexivity. Qed.

Lemma run_ops_add_stdout (ls : list pystr) (ops : list fsop) (w : world) :
  run_ops ops (add_stdout ls w) = add_stdout ls (run_ops ops w).
Proof.
  revert w. induction ops as [|op ops IH]; intros w; [reflexivity|].
  cbn. rewrite apply_op_add_stdout. apply IH.
Qed.

Lemma run_ops_app (ops1 ops2 : list fsop) (w : world) :
  run_ops (ops1 ++ ops2) w = run_ops ops2 (run_ops ops1 w).
Proof. apply foldl_app. Qed.

Lemma bind_fs_do {B} (op : fsop) (k : unit → M B) (w : world) :
  bind (fs_do op) k w = k tt (apply_op op w).
Proof. unfold bind. rewrite fs_do_ok. reflexivity. Qed.

Lemma bind_print {B} (line : pystr) (k : unit → M B) (w : world) :
  bind (print line) k w = k tt (add_stdout [line] w).
Proof. reflexivity. Qed.

Lemma generate_model_ok (build_dir : pystr) (scripts : bool) (acc : list pystr)
    (model : pystr) (w : world) :
  generate_model build_dir scripts acc model w
  = (Ok (acc ++ script_paths build_dir scripts [model]),
     add_stdout [generate_line model] (run_ops (model_ops build_dir scripts model) w)).
Proof.
  unfold generate_model, write_file. cbv zeta.
  rewrite bind_print. rewrite !bind_assoc, !bind_fs_do, !bind_assoc, !bind_fs_do.
  destruct scripts; cbn [script_paths fmap list_fmap].
  - rewrite !bind_assoc, !bind_fs_do. reflexivity.
  - unfold ret. rewrite app_nil_r. reflexivity.
Qed.

Lemma script_paths_cons (build_dir : pystr) (scripts : bool) (model : pystr)
    (models : list pystr) :
  script_paths build_dir scripts (model :: models)
  = script_paths build_dir scripts [model] ++ script_paths build_dir scripts models.
Proof. destruct scripts; reflexivity. Qed.

Lemma generate_loop_ok (build_dir : pystr) (scripts : bool) (models : list pystr)
    (acc : list pystr) (w : world) :
  for_in models (generate_model build_dir scripts) acc w
  = (Ok (acc ++ script_paths build_dir scripts models),
     add_stdout (generate_line <$> models)
       (run_ops (models ≫= model_ops build_dir scripts) w)).
Proof.
  revert acc w. induction models as [|model models IH]; intros acc w.
  - cbn. unfold ret. rewrite add_stdout_nil.
    replace (script_paths build_dir scripts []) with (@nil pystr) by (destruct scripts; reflexivity).
    rewrite app_nil_r. reflexivity.
  - cbn [for_in]. unfold bind. rewrite generate_model_ok, IH.
    rewrite run_ops_add_stdout, add_stdout_add.
    rewrite (script_paths_cons _ _ model models), app_assoc.
    rewrite bind_cons, run_ops_app. reflexivity.
Qed.

Lemma write_lines_ok (path : pystr) (build_scripts : list pystr) (w : world) :
  for_in build_scripts (λ _ script, fs_do (OpWrite path (script ++ nl))) tt w
  = (Ok tt, run_ops ((λ script, OpWrite path (script ++ nl)) <$> build_scripts) w).
Proof.
  revert w. induction build_scripts as [|script rest IH]; intros w; [reflexivity|].
  cbn [for_in]. unfold bind. rewrite fs_do_ok. rewrite IH. reflexivity.
Qed.

Lemma write_build_all_ok (build_dir : pystr) (build_scripts : list pystr) (w : world) :
  write_build_all build_dir build_scripts w
  = (Ok tt, run_ops (build_all_ops build_dir build_scripts) w).
Proof.
  unfold write_build_all, build_all_ops, bind.
  rewrite !fs_do_ok, write_lines_ok, fs_do_ok.
  rewrite !run_ops_app. reflexivity.
Qed.

(** The whole of [generate_files], when nothing fails. *)
Lemma generate_files_ok (models : list pystr) (build_dir : pystr) (scripts : bool) (w : world) :
  generate_files models build_dir scripts w
  = (Ok tt, add_stdout (generate_line <$> models)
              (run_ops (generate_ops models build_dir scripts) w)).
Proof.
  unfold generate_files, generate_ops, bind.
  rewrite fs_do_ok, generate_loop_ok. cbn [app].
  change (run_ops (?op :: ?ops) w) with (run_ops ops (apply_op op w)).
  rewrite run_ops_app.
  destruct (script_paths build_dir scripts models) as [|p ps] eqn:E.
  - rewrite andb_comm. cbn. unfold ret. reflexivity.
  - destruct scripts; [|discriminate]. cbn [andb negb bool_decide decide_rel].
    rewrite bool_decide_eq_false_2 by discriminate. cbn [negb].
    rewrite write_build_all_ok, run_ops_add_stdout. reflexivity.
Qed.

End FaultFree.

(** ** What a sequence of operations does to the world *)

Section Ops.
Context `{P : Platform}.

Lemma oplog_run_ops (ops : list fsop) (w : world) : oplog (run_ops ops w) = oplog w ++ ops.
Proof.
  revert w. induction ops as [|op ops IH]; intros w; cbn.
  - rewrite app_nil_r. reflexivity.
  - change (oplog (run_ops ops (apply_op op w)) = oplog w ++ op :: ops).
    rewrite IH. cbn. rewrite <- app_assoc. reflexivity.
Qed.

Lemma stdout_run_ops (ops : list fsop) (w : world) : stdout (run_ops ops w) = stdout w.
Proof.
  revert w. induction ops as [|op ops IH]; intros w; [reflexivity|].
  change (stdout (run_ops ops (apply_op op w)) = stdout w). rewrite IH. reflexivity.
Qed.

Lemma procs_run_ops (ops : list fsop) (w : world) : procs (run_ops ops w) = procs w.
Proof.
  revert w. induction ops as [|op ops IH]; intros w; [reflexivity|].
  change (procs (run_ops ops (apply_op op w)) = procs w). rewrite IH. reflexivity.
Qed.

Lemma files_apply_op (op : fsop) (w : world) (p : pystr) :
  files (apply_op op w) !! p
  = if decide (op_file op = Some p) then file_step op (files w !! p) else files w !! p.
Proof.
  destruct op as [q|q|q data|q m]; cbn.
  - reflexivity.
  - destruct (decide (Some q = Some p)) as [[= ->]|Hne].
    + rewrite lookup_insert_eq. reflexivity.
    + rewrite lookup_insert_ne by congruence. reflexivity.
  - destruct (decide (Some q = Some p)) as [[= ->]|Hne].
    + rewrite lookup_alter_eq. reflexivity.
    + rewrite lookup_alter_ne by congruence. reflexivity.
  - destruct (decide (Some q = Some p)) as [[= ->]|Hne].
    + rewrite lookup_alter_eq. reflexivity.
    + rewrite lookup_alter_ne by congruence. reflexivity.
Qed.

(** A file is shaped by the operations on it alone. *)
Lemma files_run_ops (ops : list fsop) (w : world) (p : pystr) :
  files (run_ops ops w) !! p
  = foldl (λ o op, file_step op o) (files w !! p) (filter (λ op, op_file op = Some p) ops).
Proof.
  revert w. induction ops as [|op ops IH]; intros w; [reflexivity|].
  change (run_ops (op :: ops) w) with (run_ops ops (apply_op op w)).
  rewrite IH, files_apply_op, filter_cons.
  destruct (decide (op_file op = Some p)); reflexivity.
Qed.

Lemma files_run_ops_untouched (ops : list fsop) (w : world) (p : pystr) :
  Forall (λ op, op_file op ≠ Some p) ops → files (run_ops ops w) !! p = files w !! p.
Proof.
  intros HF. rewrite files_run_ops.
  replace (filter (λ op, op_file op = Some p) ops) with (@nil fsop); [reflexivity|].
  symmetry. induction HF as [|op ops Hop _ IH]; [reflexivity|].
  rewrite filter_cons_False by exact Hop. exact IH.
Qed.

(** Operations create files and never remove one. *)
Lemma dom_files_run_ops (ops : list fsop) (w : world) :
  dom (files (run_ops ops w)) = dom (files w) ∪ list_to_set (opened ops).
Proof.
  revert w. induction ops as [|op ops IH]; intros w.
  - cbn. rewrite union_empty_r_L. reflexivity.
  - change (run_ops (op :: ops) w) with (run_ops ops (apply_op op w)). rewrite IH.
    destruct op as [q|q|q data|q m]; cbn.
    + reflexivity.
    + rewrite dom_insert_L, (union_comm_L {[q]}), union_assoc_L. reflexivity.
    + rewrite dom_alter_L. reflexivity.
    + rewrite dom_alter_L. reflexivity.
Qed.

(** Writing a file from scratch leaves exactly what was written. *)
Lemma files_run_ops_written (pre post : list fsop) (p data : pystr) (w : world) :
  Forall (λ op, op_file op ≠ Some p) post →
  ∃ m, files (run_ops (pre ++ [OpOpenW p; OpWrite p data] ++ post) w) !! p
       = Some (File data m).
Proof.
  intros Hpost. rewrite !run_ops_app, files_run_ops_untouched by exact Hpost.
  cbn [run_ops foldl]. rewrite !files_apply_op. cbn [op_file].
  rewrite !decide_True by reflexivity. cbn. eexists. reflexivity.
Qed.

End Ops.

(** ** Runs in which an operation may fail *)

Section Follows.
Context `{P : Platform}.

Lemma grows_refl (w : world) : grows w w [].
Proof. exists []. symmetry. apply add_stdout_nil. Qed.

Lemma grows_trans (w1 w2 w3 : world) (ops1 ops2 : list fsop) :
  grows w1 w2 ops1 → grows w2 w3 ops2 → grows w1 w3 (ops1 ++ ops2).
Proof.
  intros [l1 ->] [l2 ->]. exists (l1 ++ l2).
  rewrite run_ops_add_stdout, add_stdout_add, run_ops_app. reflexivity.
Qed.

Lemma grows_apply_op (op : fsop) (w : world) : grows w (apply_op op w) [op].
Proof. exists []. symmetry. apply add_stdout_nil. Qed.

Lemma follows_ret {A} (a : A) : follows (ret a) [] a.
Proof. intros w. cbn. split; [reflexivity | apply grows_refl]. Qed.

Lemma follows_print (line : pystr) : follows (print line) [] tt.
Proof. intros w. split; [reflexivity|]. exists [line]. reflexivity. Qed.

Lemma follows_fs_do (op : fsop) : follows (fs_do op) [op] tt.
Proof.
  intros w. unfold fs_do. destruct (fs_fault op w) as [errno|] eqn:E.
  - exists [], op, [], errno. split_and!; [reflexivity | reflexivity | exact E | apply grows_refl].
  - split; [reflexivity | apply grows_apply_op].
Qed.

Lemma follows_bind {A B} (m : M A) (k : A → M B) (ops1 ops2 : list fsop) (a : A) (b : B) :
  follows m ops1 a → follows (k a) ops2 b → follows (bind m k) (ops1 ++ ops2) b.
Proof.
  intros Hm Hk w. unfold bind. specialize (Hm w).
  destruct (m w) as [[a'|e] w1].
  - destruct Hm as [-> Hg1]. specialize (Hk w1).
    destruct (k a w1) as [[b'|e] w2].
    + destruct Hk as [-> Hg2]. split; [reflexivity|]. eapply grows_trans; eassumption.
    + destruct Hk as (done & op & rest & errno & -> & -> & Hf & Hg2).
      exists (ops1 ++ done), op, rest, errno. rewrite <- app_assoc.
      split_and!; [reflexivity | reflexivity | exact Hf|]. eapply grows_trans; eassumption.
  - destruct Hm as (done & op & rest & errno & -> & -> & Hf & Hg1).
    exists done, op, (rest ++ ops2), errno. rewrite <- app_assoc.
    split_and!; [reflexivity | reflexivity | exact Hf | exact Hg1].
Qed.

Lemma follows_eq {A} (m : M A) (ops ops' : list fsop) (v v' : A) :
  follows m ops v → ops = ops' → v = v' → follows m ops' v'.
Proof. intros H -> ->. exact H. Qed.

Lemma follows_write_file (path data : pystr) :
  follows (write_file path data) [OpOpenW path; OpWrite path data] tt.
Proof.
  unfold write_file.
  eapply follows_eq; [eapply follows_bind; apply follows_fs_do | reflexivity..].
Qed.

Lemma follows_generate_model (build_dir : pystr) (scripts : bool) (acc : list pystr)
    (model : pystr) :
  follows (generate_model build_dir scripts acc model)
    (model_ops build_dir scripts model) (acc ++ script_paths build_dir scripts [model]).
Proof.
  unfold generate_model. cbv zeta. destruct scripts.
  - eapply follows_eq;
      [ eapply follows_bind; [apply follows_print|];
        eapply follows_bind; [apply follows_write_file|];
        eapply follows_bind; [apply follows_write_file|];
        eapply follows_bind; [apply follows_write_file|];
        eapply follows_bind; [apply follows_fs_do | apply follows_ret]
      | reflexivity.. ].
  - eapply follows_eq;
      [ eapply follows_bind; [apply follows_print|];
        eapply follows_bind; [apply follows_write_file|];
        eapply follows_bind; [apply follows_write_file | apply follows_ret]
      | reflexivity
      | cbn; symmetry; apply app_nil_r ].
Qed.

Lemma follows_generate_loop (build_dir : pystr) (scripts : bool) (models : list pystr)
    (acc : list pystr) :
  follows (for_in models (generate_model build_dir scripts) acc)
    (models ≫= model_ops build_dir scripts)
    (acc ++ script_paths build_dir scripts models).
Proof.
  revert acc. induction models as [|model models IH]; intros acc.
  - eapply follows_eq; [apply follows_ret | reflexivity |].
    destruct scripts; cbn; rewrite app_nil_r; reflexivity.
  - cbn [for_in]. eapply follows_eq.
    + eapply follows_bind; [apply follows_generate_model | apply IH].
    + reflexivity.
    + rewrite <- app_assoc. f_equal. destruct scripts; reflexivity.
Qed.

Lemma follows_write_lines (path : pystr) (build_scripts : list pystr) :
  follows (for_in build_scripts (λ _ script, fs_do (OpWrite path (script ++ nl))) tt)
    ((λ script, OpWrite path (script ++ nl)) <$> build_scripts) tt.
Proof.
  induction build_scripts as [|script rest IH]; [apply follows_ret|].
  cbn [for_in]. eapply follows_eq;
    [eapply follows_bind; [apply follows_fs_do | apply IH] | reflexivity..].
Qed.

Lemma follows_write_build_all (build_dir : pystr) (build_scripts : list pystr) :
  follows (write_build_all build_dir build_scripts) (build_all_ops build_dir build_scripts) tt.
Proof.
  unfold write_build_all. cbv zeta.
  eapply follows_eq;
    [ eapply follows_bind; [apply follows_fs_do|];
      eapply follows_bind; [apply follows_fs_do|];
      eapply follows_bind; [apply follows_write_lines | apply follows_fs_do]
    | reflexivity.. ].
Qed.

(** [generate_files] attempts exactly the operations of [generate_ops]. *)
Lemma follows_generate_files (models : list pystr) (build_dir : pystr) (scripts : bool) :
  follows (generate_files models build_dir scripts)
    (generate_ops models build_dir scripts) tt.
Proof.
  unfold generate_files, generate_ops.
  eapply follows_eq; [|reflexivity..].
  apply (follows_bind _ _ [OpMakedirs build_dir] _ tt); [apply follows_fs_do|].
  eapply follows_bind; [apply follows_generate_loop|].
  cbn [app]. destruct (script_paths build_dir scripts models) as [|p ps] eqn:E.
  - rewrite andb_comm. cbn. apply follows_ret.
  - destruct scripts; [|discriminate]. cbn [andb].
    rewrite bool_decide_eq_false_2 by discriminate. apply follows_write_build_all.
Qed.

End Follows.

(** ** Artifact paths *)

Section Paths.
Context `{P : Platform}.

Lemma dockerfile_name_relative (t : pystr) : head (str "Dockerfile-" ++ t) ≠ Some slash.
Proof. discriminate. Qed.

Lemma cloudbuild_name_relative (model : pystr) :
  head (get_model_id model ++ str "-cloudbuild.yaml") ≠ Some slash.
Proof. apply head_app_ne; [apply get_model_id_no_slash | discriminate]. Qed.

Lemma build_script_name_relative (t : pystr) :
  head (str "build-" ++ t ++ str ".sh") ≠ Some slash.
Proof. discriminate. Qed.

Lemma dockerfile_name_no_dot (model : pystr) : dot ∉ str "Dockerfile-" ++ get_model_id model.
Proof.
  intros Hin. apply elem_of_app in Hin as [Hin|Hin].
  - revert Hin. by_decide.
  - exact (get_model_id_no_dot _ Hin).
Qed.

(** Names made of a token and fixed text hold no slash. *)
Lemma dockerfile_name_no_slash (model : pystr) : slash ∉ str "Dockerfile-" ++ get_model_id model.
Proof.
  intros Hin. apply elem_of_app in Hin as [Hin|Hin].
  - revert Hin. by_decide.
  - exact (get_model_id_no_slash _ Hin).
Qed.

Lemma cloudbuild_name_no_slash (model : pystr) :
  slash ∉ get_model_id model ++ str "-cloudbuild.yaml".
Proof.
  intros Hin. apply elem_of_app in Hin as [Hin|Hin].
  - exact (get_model_id_no_slash _ Hin).
  - revert Hin. by_decide.
Qed.

Lemma build_script_name_no_slash (model : pystr) :
  slash ∉ str "build-" ++ get_model_id model ++ str ".sh".
Proof.
  intros Hin. apply elem_of_app in Hin as [Hin|Hin].
  - revert Hin. by_decide.
  - apply elem_of_app in Hin as [Hin|Hin].
    + exact (get_model_id_no_slash _ Hin).
    + revert Hin. by_decide.
Qed.

(** A Dockerfile is never the file of a name with a dot in it. *)
Lemma dockerfile_path_ne (build_dir model name : pystr) :
  head name ≠ Some slash → dot ∈ name →
  path_join build_dir name ≠ dockerfile_path build_dir (get_model_id model).
Proof.
  intros Hrel Hdot Heq. unfold dockerfile_path in Heq.
  apply path_join_inj in Heq; [|exact Hrel | apply dockerfile_name_relative].
  subst name. exact (dockerfile_name_no_dot _ Hdot).
Qed.

Lemma cloudbuild_path_ne_dockerfile (build_dir model model' : pystr) :
  cloudbuild_path build_dir (get_model_id model')
  ≠ dockerfile_path build_dir (get_model_id model).
Proof.
  apply dockerfile_path_ne; [apply cloudbuild_name_relative|].
  apply elem_of_app. right. by_decide.
Qed.

Lemma build_script_path_ne_dockerfile (build_dir model model' : pystr) :
  build_script_path build_dir (get_model_id model')
  ≠ dockerfile_path build_dir (get_model_id model).
Proof.
  apply dockerfile_path_ne; [apply build_script_name_relative|].
  apply elem_of_app. right. apply elem_of_app. right.
  by_decide.
Qed.

Lemma build_all_path_ne_dockerfile (build_dir model : pystr) :
  build_all_path build_dir ≠ dockerfile_path build_dir (get_model_id model).
Proof.
  apply dockerfile_path_ne; [discriminate|]. by_decide.
Qed.

(** Which artifacts are [.sh] files. *)
Lemma dockerfile_path_not_sh (build_dir model : pystr) :
  endswith (dockerfile_path build_dir (get_model_id model)) (str ".sh") = false.
Proof.
  unfold dockerfile_path. rewrite endswith_path_join by (rewrite length_app; cbn; lia).
  apply endswith_false. intros [k Hk]. apply (dockerfile_name_no_dot model).
  rewrite Hk. apply elem_of_app. right. left.
Qed.

Lemma cloudbuild_path_not_sh (build_dir t : pystr) :
  endswith (cloudbuild_path build_dir t) (str ".sh") = false.
Proof.
  unfold cloudbuild_path. rewrite endswith_path_join by (rewrite length_app; cbn; lia).
  apply endswith_false. intros Hs.
  apply suffix_app_tail in Hs; [|cbn; lia].
  revert Hs. by_decide.
Qed.

Lemma build_script_path_sh (build_dir t : pystr) :
  endswith (build_script_path build_dir t) (str ".sh") = true.
Proof.
  unfold build_script_path. rewrite endswith_path_join by (rewrite !length_app; cbn; lia).
  apply endswith_true. exists (str "build-" ++ t). rewrite <- app_assoc. reflexivity.
Qed.

Lemma build_all_path_sh (build_dir : pystr) :
  endswith (build_all_path build_dir) (str ".sh") = true.
Proof.
  unfold build_all_path. rewrite endswith_path_join by (cbn; lia). reflexivity.
Qed.

End Paths.

(** ** The files a run opens *)

Section Opened.
Context `{P : Platform}.

Lemma opened_app (ops1 ops2 : list fsop) : opened (ops1 ++ ops2) = opened ops1 ++ opened ops2.
Proof. apply omap_app. Qed.

Lemma opened_writes (path : pystr) (datas : list pystr) (f : pystr → pystr) :
  opened ((λ d, OpWrite path (f d)) <$> datas) = [].
Proof. induction datas as [|d datas IH]; [reflexivity | exact IH]. Qed.

Lemma opened_build_all_ops (build_dir : pystr) (build_scripts : list pystr) :
  opened (build_all_ops build_dir build_scripts) = [build_all_path build_dir].
Proof.
  unfold build_all_ops. rewrite !opened_app.
  rewrite (opened_writes _ _ (λ script, script ++ nl)). reflexivity.
Qed.

Lemma opened_model_ops (build_dir : pystr) (scripts : bool) (model : pystr) :
  opened (model_ops build_dir scripts model)
  = [ dockerfile_path build_dir (get_model_id model);
      cloudbuild_path build_dir (get_model_id model) ]
    ++ (if scripts then [build_script_path build_dir (get_model_id model)] else []).
Proof. destruct scripts; reflexivity. Qed.

Lemma opened_generate_ops (models : list pystr) (build_dir : pystr) (scripts : bool) :
  opened (generate_ops models build_dir scripts)
  = (models ≫= λ model,
       [ dockerfile_path build_dir (get_model_id model);
         cloudbuild_path build_dir (get_model_id model) ]
       ++ (if scripts then [build_script_path build_dir (get_model_id model)] else []))
    ++ (if scripts && negb (bool_decide (models = []))
        then [build_all_path build_dir] else []).
Proof.
  unfold generate_ops.
  change (opened (OpMakedirs build_dir :: ?ops)) with (opened ops).
  rewrite opened_app. f_equal.
  - induction models as [|model models IH]; [reflexivity|].
    rewrite !bind_cons, opened_app, opened_model_ops, IH. reflexivity.
  - destruct scripts; [|reflexivity].
    destruct models as [|model models]; [reflexivity|].
    cbn [script_paths fmap list_fmap]. rewrite opened_build_all_ops. reflexivity.
Qed.

End Opened.

(** * The claims *)

(** C1. For every identifier, [get_model_id] replaces each character that is
    not alphanumeric by a hyphen and keeps the others: the token is the
    identifier mapped character by character, it consists of alphanumeric
    characters and hyphens only, and it holds neither a colon nor a dot. *)
Theorem get_model_id_alnum_or_hyphen `{P : Platform} (s : pystr) :
  get_model_id s = ((λ c, if isalnum c then c else hyphen) <$> s)
  ∧ Forall (λ c, isalnum c = true ∨ c = hyphen) (get_model_id s)
  ∧ (colon ∉ get_model_id s)
  ∧ (dot ∉ get_model_id s).
Proof.
  split_and!.
  - apply get_model_id_fmap.
  - apply get_model_id_chars.
  - apply get_model_id_excludes; [apply isalnum_colon | discriminate].
  - apply get_model_id_no_dot.
Qed.

(** C2. The sanitizer is idempotent: sanitizing a token gives the token
    back.  It is deterministic: the token is a function of the identifier
    and of the character table alone, so two platforms with the same table
    (whatever their file systems and commands do) give the same token. *)
Theorem get_model_id_idempotent `{P : Platform} (s : pystr) :
  get_model_id (get_model_id s) = get_model_id s
  ∧ ∀ Q : Platform,
      (∀ c, @unicode_isalnum Q c = @unicode_isalnum P c) →
      @get_model_id Q s = @get_model_id P s.
Proof.
  split; [apply get_model_id_idem|].
  intros Q Htable. rewrite !get_model_id_fmap.
  apply list_fmap_ext. intros _ c _. cbn. unfold isalnum. rewrite Htable. reflexivity.
Qed.

Lemma get_model_id_idempotent_witness :
  @get_model_id rejecting (str "qwen3:32b") = @get_model_id quiet (str "qwen3:32b").
Proof.
  apply (proj2 (@get_model_id_idempotent quiet (str "qwen3:32b")) rejecting).
  intros c. reflexivity.
Defined.

(** C3. [gemma:2b] and [llama3.1] are sanitized to [gemma-2b] and
    [llama3-1], and generating for the two of them creates, in the build
    directory, the files [Dockerfile-gemma-2b], [gemma-2b-cloudbuild.yaml],
    [Dockerfile-llama3-1] and [llama3-1-cloudbuild.yaml]. *)
Theorem gemma_llama_artifacts `{P : Platform} (Hff : fault_free P)
    (build_dir : pystr) (scripts : bool) (w : world) :
  get_model_id (str "gemma:2b") = str "gemma-2b"
  ∧ get_model_id (str "llama3.1") = str "llama3-1"
  ∧ ∃ w', generate_files [str "gemma:2b"; str "llama3.1"] build_dir scripts w = (Ok tt, w')
      ∧ Forall (λ name, is_Some (files w' !! path_join build_dir name)
                        ∧ OpOpenW (path_join build_dir name) ∈ oplog w')
          [ str "Dockerfile-gemma-2b"; str "gemma-2b-cloudbuild.yaml";
            str "Dockerfile-llama3-1"; str "llama3-1-cloudbuild.yaml" ].
Proof.
  assert (Hg : get_model_id (str "gemma:2b") = str "gemma-2b") by (vm_compute; reflexivity).
  assert (Hl : get_model_id (str "llama3.1") = str "llama3-1") by (vm_compute; reflexivity).
  split_and!; [exact Hg | exact Hl |].
  eexists. split; [apply generate_files_ok, Hff|].
  assert (Hopened : ∀ name,
    name ∈ [ str "Dockerfile-gemma-2b"; str "gemma-2b-cloudbuild.yaml";
             str "Dockerfile-llama3-1"; str "llama3-1-cloudbuild.yaml" ] →
    OpOpenW (path_join build_dir name)
    ∈ generate_ops [str "gemma:2b"; str "llama3.1"] build_dir scripts).
  { intros name Hname. unfold generate_ops. apply elem_of_cons. right.
    apply elem_of_app. left. cbn [mbind list_bind]. unfold model_ops. cbv zeta.
    unfold dockerfile_path, cloudbuild_path. rewrite Hg, Hl.
    repeat (apply elem_of_cons in Hname as [->|Hname]);
      [ | | | | apply elem_of_nil in Hname; contradiction ].
    - apply elem_of_app. left. apply elem_of_app. left. left.
    - apply elem_of_app. left. apply elem_of_app. left. do 2 right. left.
    - apply elem_of_app. right. apply elem_of_app. left. apply elem_of_app. left. left.
    - apply elem_of_app. right. apply elem_of_app. left. apply elem_of_app. left.
      do 2 right. left. }
  apply Forall_forall. intros name Hname. specialize (Hopened name Hname). split.
  - apply elem_of_dom. cbn [files add_stdout]. rewrite dom_files_run_ops.
    apply elem_of_union. right. apply elem_of_list_to_set. unfold opened.
    apply list_elem_of_omap. eexists. split; [exact Hopened | reflexivity].
  - cbn [oplog add_stdout]. rewrite oplog_run_ops. apply elem_of_app. right. exact Hopened.
Qed.

Lemma gemma_llama_artifacts_witness :
  @get_model_id quiet (str "gemma:2b") = str "gemma-2b"
  ∧ @get_model_id quiet (str "llama3.1") = str "llama3-1"
  ∧ ∃ w', @generate_files quiet [str "gemma:2b"; str "llama3.1"] (str "./build") true
            empty_world = (Ok tt, w')
      ∧ Forall (λ name, is_Some (files w' !! path_join (str "./build") name)
                        ∧ OpOpenW (path_join (str "./build") name) ∈ oplog w')
          [ str "Dockerfile-gemma-2b"; str "gemma-2b-cloudbuild.yaml";
            str "Dockerfile-llama3-1"; str "llama3-1-cloudbuild.yaml" ].
Proof.
  apply (@gemma_llama_artifacts quiet). intros op w. reflexivity.
Defined.

(** C4. A run that meets no file-system fault opens, for each model of
    token [t] and in list order, [Dockerfile-<t>], [<t>-cloudbuild.yaml]
    and (scripts enabled) [build-<t>.sh], then (scripts enabled, some
    model) [build-all.sh]; these are the only files it creates.  Each is
    [os.path.join] of the build directory and a name without a slash, so
    it lies directly in the build directory under exactly that name. *)
Theorem artifact_names `{P : Platform} (Hff : fault_free P)
    (models : list pystr) (build_dir : pystr) (scripts : bool) (w : world) :
  ∃ w' ops,
    generate_files models build_dir scripts w = (Ok tt, w')
    ∧ oplog w' = oplog w ++ ops
    ∧ opened ops
      = (models ≫= λ model,
           [ path_join build_dir (str "Dockerfile-" ++ get_model_id model);
             path_join build_dir (get_model_id model ++ str "-cloudbuild.yaml") ]
           ++ (if scripts
               then [path_join build_dir (str "build-" ++ get_model_id model ++ str ".sh")]
               else []))
        ++ (if scripts && negb (bool_decide (models = []))
            then [path_join build_dir (str "build-all.sh")] else [])
    ∧ dom (files w') = dom (files w) ∪ list_to_set (opened ops)
    ∧ (∀ model,
         basename (path_join build_dir (str "Dockerfile-" ++ get_model_id model))
         = str "Dockerfile-" ++ get_model_id model
         ∧ basename (path_join build_dir (get_model_id model ++ str "-cloudbuild.yaml"))
           = get_model_id model ++ str "-cloudbuild.yaml"
         ∧ basename (path_join build_dir (str "build-" ++ get_model_id model ++ str ".sh"))
           = str "build-" ++ get_model_id model ++ str ".sh")
    ∧ basename (path_join build_dir (str "build-all.sh")) = str "build-all.sh".
Proof.
  exists (add_stdout (generate_line <$> models)
            (run_ops (generate_ops models build_dir scripts) w)),
         (generate_ops models build_dir scripts).
  split_and!.
  - apply generate_files_ok, Hff.
  - cbn [oplog add_stdout]. apply oplog_run_ops.
  - apply opened_generate_ops.
  - cbn [files add_stdout]. apply dom_files_run_ops.
  - intros model. split_and!; apply basename_path_join.
    + apply dockerfile_name_no_slash.
    + apply cloudbuild_name_no_slash.
    + apply build_script_name_no_slash.
  - apply basename_path_join. by_decide.
Qed.

Lemma artifact_names_witness :
  ∃ w' ops,
    @generate_files quiet [str "qwen3:32b"] (str "./build") true empty_world = (Ok tt, w')
    ∧ oplog w' = oplog empty_world ++ ops
    ∧ opened ops
      = ([str "qwen3:32b"] ≫= λ model,
           [ path_join (str "./build") (str "Dockerfile-" ++ @get_model_id quiet model);
             path_join (str "./build") (@get_model_id quiet model ++ str "-cloudbuild.yaml") ]
           ++ (if true
               then [path_join (str "./build")
                       (str "build-" ++ @get_model_id quiet model ++ str ".sh")]
               else []))
        ++ (if true && negb (bool_decide ([str "qwen3:32b"] = []))
            then [path_join (str "./build") (str "build-all.sh")] else [])
    ∧ dom (files w') = dom (files empty_world) ∪ list_to_set (opened ops)
    ∧ (∀ model,
         basename (path_join (str "./build") (str "Dockerfile-" ++ @get_model_id quiet model))
         = str "Dockerfile-" ++ @get_model_id quiet model
         ∧ basename (path_join (str "./build")
                       (@get_model_id quiet model ++ str "-cloudbuild.yaml"))
           = @get_model_id quiet model ++ str "-cloudbuild.yaml"
         ∧ basename (path_join (str "./build")
                       (str "build-" ++ @get_model_id quiet model ++ str ".sh"))
           = str "build-" ++ @get_model_id quiet model ++ str ".sh")
    ∧ basename (path_join (str "./build") (str "build-all.sh")) = str "build-all.sh".
Proof.
  apply (@artifact_names quiet). intros op w. reflexivity.
Defined.

(** C5. The sanitizer is not injective: [a:b] and [a.b] are distinct
    identifiers with one token.  Whenever two identifiers share their token
    they share all three artifact paths, and generating for the first and
    then the second leaves, under the shared Dockerfile name, the Dockerfile
    of the second: the first one's has been overwritten. *)
Theorem token_collision_overwrites `{P : Platform} :
  (str "a:b" ≠ str "a.b"
   ∧ get_model_id (str "a:b") = get_model_id (str "a.b")
   ∧ render_dockerfile (str "a:b") [] ≠ render_dockerfile (str "a.b") [])
  ∧ ∀ (a b build_dir : pystr) (scripts : bool) (w : world),
      fault_free P → get_model_id a = get_model_id b →
      (dockerfile_path build_dir (get_model_id a) = dockerfile_path build_dir (get_model_id b)
       ∧ cloudbuild_path build_dir (get_model_id a) = cloudbuild_path build_dir (get_model_id b)
       ∧ build_script_path build_dir (get_model_id a)
         = build_script_path build_dir (get_model_id b))
      ∧ ∃ w' f,
          generate_files [a; b] build_dir scripts w = (Ok tt, w')
          ∧ files w' !! dockerfile_path build_dir (get_model_id a) = Some f
          ∧ content f = render_dockerfile b [].
Proof.
  split.
  - split_and!; [discriminate | vm_compute; reflexivity | vm_compute; discriminate].
  - intros a b build_dir scripts w Hff Hab. split.
    + rewrite Hab. split_and!; reflexivity.
    + set (dp := dockerfile_path build_dir (get_model_id b)).
      assert (Hpost : ∃ pre post,
        generate_ops [a; b] build_dir scripts
        = pre ++ [OpOpenW dp; OpWrite dp (render_dockerfile b [])] ++ post
        ∧ Forall (λ op, op_file op ≠ Some dp) post).
      { exists (OpMakedirs build_dir :: model_ops build_dir scripts a),
               ([ OpOpenW (cloudbuild_path build_dir (get_model_id b));
                  OpWrite (cloudbuild_path build_dir (get_model_id b))
                    (render_cloudbuild (get_model_id b)) ]
                ++ (if scripts
                    then [ OpOpenW (build_script_path build_dir (get_model_id b));
                           OpWrite (build_script_path build_dir (get_model_id b))
                             (render_build_script build_dir (get_model_id b));
                           OpChmod (build_script_path build_dir (get_model_id b)) 493 ]
                    else [])
                ++ match script_paths build_dir scripts [a; b] with
                   | [] => []
                   | paths => build_all_ops build_dir paths
                   end).
        split.
        - unfold generate_ops. cbn [mbind list_bind]. unfold model_ops at 2. cbv zeta.
          fold dp. rewrite app_nil_r, <- !app_assoc. reflexivity.
        - repeat (apply Forall_app; split).
          + repeat constructor; cbn; intros [= Heq];
              exact (cloudbuild_path_ne_dockerfile _ _ _ Heq).
          + destruct scripts; repeat constructor; cbn; intros [= Heq];
              exact (build_script_path_ne_dockerfile _ _ _ Heq).
          + destruct scripts; [|constructor]. cbn [script_paths fmap list_fmap].
            unfold build_all_ops. repeat (apply Forall_app; split).
            * repeat constructor; cbn; intros [= Heq];
                exact (build_all_path_ne_dockerfile _ _ Heq).
            * apply Forall_fmap, Forall_forall. intros script _. cbn. intros [= Heq].
              exact (build_all_path_ne_dockerfile _ _ Heq).
            * repeat constructor; cbn; intros [= Heq];
                exact (build_all_path_ne_dockerfile _ _ Heq). }
      destruct Hpost as (pre & post & Hops & Hpost).
      destruct (files_run_ops_written pre post dp (render_dockerfile b []) w Hpost)
        as [m Hm].
      eexists _, (File (render_dockerfile b []) m). split_and!.
      * apply generate_files_ok, Hff.
      * cbn [files add_stdout]. rewrite Hab, Hops. exact Hm.
      * reflexivity.
Qed.

Lemma token_collision_overwrites_witness :
  ∃ w' f,
    @generate_files quiet [str "a:b"; str "a.b"] (str "./build") true empty_world = (Ok tt, w')
    ∧ files w' !! dockerfile_path (str "./build") (@get_model_id quiet (str "a:b")) = Some f
    ∧ content f = render_dockerfile (str "a.b") [].
Proof.
  apply (proj2 (@token_collision_overwrites quiet)).
  - intros op w. reflexivity.
  - vm_compute. reflexivity.
Defined.

(** ** Submitting *)

Lemma for_in_app {A S} (pre post : list A) (body : S → A → M S) (acc acc1 : S) (w w1 : world) :
  for_in pre body acc w = (Ok acc1, w1) →
  for_in (pre ++ post) body acc w = for_in post body acc1 w1.
Proof.
  revert acc w. induction pre as [|x pre IH]; intros acc w Hpre.
  - cbn in Hpre. injection Hpre as -> ->. reflexivity.
  - cbn [for_in app] in *. unfold bind in *.
    destruct (body acc x w) as [[acc'|e] w']; [|discriminate].
    apply IH, Hpre.
Qed.

Section Submit.
Context `{P : Platform}.

Lemma submit_model_exited (build_dir model : pystr) (rc : Z) (w : world) :
  proc_run (gcloud_cmd build_dir model)
    (add_stdout [ str "Submitting build for model: " ++ model
                    ++ str " (ID: " ++ get_model_id model ++ str ")" ] w)
  = Exited rc →
  submit_model build_dir tt model w = (Ok tt, submitted build_dir model rc w).
Proof.
  intros Hrun. unfold submit_model. cbv zeta. rewrite bind_print.
  unfold try_except_CalledProcessError, bind, subprocess_run_check.
  rewrite Hrun. unfold submitted, print, add_stdout. cbn.
  destruct rc; cbn; rewrite <- app_assoc; reflexivity.
Qed.

Lemma submit_builds_total (build_dir : pystr) (models : list pystr) (w : world) :
  always_spawns P →
  ∃ w', submit_builds models build_dir w = (Ok tt, w')
        ∧ procs w' = procs w ++ (gcloud_cmd build_dir <$> models).
Proof.
  intros Hsp. unfold submit_builds. revert w.
  induction models as [|model models IH]; intros w.
  - exists w. cbn. rewrite app_nil_r. split; reflexivity.
  - destruct (Hsp (gcloud_cmd build_dir model)
               (add_stdout [ str "Submitting build for model: " ++ model
                               ++ str " (ID: " ++ get_model_id model ++ str ")" ] w))
      as [rc Hrc].
    destruct (IH (submitted build_dir model rc w)) as (w' & Hrun & Hprocs).
    exists w'. cbn [for_in]. unfold bind.
    rewrite (submit_model_exited _ _ _ _ Hrc). split; [exact Hrun|].
    rewrite Hprocs. cbn. rewrite <- app_assoc. reflexivity.
Qed.

End Submit.

(** C6, as the code has it.  Provided every invocation of the build command
    can be started, [submit_builds] never raises and invokes the command
    for every model in list order.  When the command exits with a non-zero
    status for a model, the [CalledProcessError] is caught, a line naming
    the model is printed, and the loop goes on with the remaining models
    from there. *)
Theorem submit_builds_exit_status_caught `{P : Platform} (Hsp : always_spawns P)
    (models : list pystr) (build_dir : pystr) (w : world) :
  ∃ w', submit_builds models build_dir w = (Ok tt, w')
    ∧ procs w' = procs w ++ (gcloud_cmd build_dir <$> models)
    ∧ ∀ (pre : list pystr) (model : pystr) (post : list pystr) (w1 : world) (rc : Z),
        models = pre ++ model :: post →
        submit_builds pre build_dir w = (Ok tt, w1) →
        proc_run (gcloud_cmd build_dir model)
          (add_stdout [ str "Submitting build for model: " ++ model
                          ++ str " (ID: " ++ get_model_id model ++ str ")" ] w1)
        = Exited rc →
        rc ≠ 0%Z →
        submit_builds models build_dir w
        = submit_builds post build_dir
            (World (files w1) (dirs w1)
               (stdout w1
                ++ [ str "Submitting build for model: " ++ model
                       ++ str " (ID: " ++ get_model_id model ++ str ")";
                     str "Error submitting build for " ++ model ++ str ": "
                       ++ exn_str (CalledProcessError rc (gcloud_cmd build_dir model)) ])
               (procs w1 ++ [gcloud_cmd build_dir model])
               (oplog w1)).
Proof.
  destruct (submit_builds_total build_dir models w Hsp) as (w' & Hrun & Hprocs).
  exists w'. split_and!; [exact Hrun | exact Hprocs |].
  intros pre model post w1 rc -> Hpre Hrc Hnz.
  unfold submit_builds in *. rewrite (for_in_app _ _ _ _ _ _ _ Hpre).
  cbn [for_in]. unfold bind. rewrite (submit_model_exited _ _ _ _ Hrc).
  unfold submitted. destruct (Z.eqb_spec rc 0) as [->|_]; [contradiction|]. reflexivity.
Qed.

Lemma submit_builds_exit_status_caught_witness :
  ∃ w', @submit_builds rejecting [str "a"; str "b"] (str "./build") empty_world = (Ok tt, w')
    ∧ procs w' = procs empty_world ++ (@gcloud_cmd rejecting (str "./build") <$> [str "a"; str "b"])
    ∧ ∀ (pre : list pystr) (model : pystr) (post : list pystr) (w1 : world) (rc : Z),
        [str "a"; str "b"] = pre ++ model :: post →
        @submit_builds rejecting pre (str "./build") empty_world = (Ok tt, w1) →
        @proc_run rejecting (@gcloud_cmd rejecting (str "./build") model)
          (add_stdout [ str "Submitting build for model: " ++ model
                          ++ str " (ID: " ++ @get_model_id rejecting model ++ str ")" ] w1)
        = Exited rc →
        rc ≠ 0%Z →
        @submit_builds rejecting [str "a"; str "b"] (str "./build") empty_world
        = @submit_builds rejecting post (str "./build")
            (World (files w1) (dirs w1)
               (stdout w1
                ++ [ str "Submitting build for model: " ++ model
                       ++ str " (ID: " ++ @get_model_id rejecting model ++ str ")";
                     str "Error submitting build for " ++ model ++ str ": "
                       ++ @exn_str rejecting
                            (CalledProcessError rc (@gcloud_cmd rejecting (str "./build") model)) ])
               (procs w1 ++ [@gcloud_cmd rejecting (str "./build") model])
               (oplog w1)).
Proof.
  apply (@submit_builds_exit_status_caught rejecting).
  intros args w. exists 1%Z. reflexivity.
Defined.

(** C6 fails as stated: when the command cannot be started ([gcloud] is not
    installed) the [OSError] is not a [CalledProcessError]; it leaves
    [submit_builds] at the first model, nothing is logged about the error
    and the second model is never submitted. *)
Lemma submit_builds_launch_failure_aborts :
  ∃ w', @submit_builds no_gcloud [str "a"; str "b"] (str "./build") empty_world
        = (Raise (OSError 2), w')
    ∧ procs w' = [@gcloud_cmd no_gcloud (str "./build") (str "a")]
    ∧ stdout w' = [str "Submitting build for model: a (ID: a)"].
Proof.
  eexists. split_and!; vm_compute; reflexivity.
Qed.

(** ** Suppressing the scripts *)

Section NoScripts.
Context `{P : Platform}.

Lemma filter_not_sh_model_ops (build_dir model : pystr) :
  filter (λ op, on_sh_file op = false) (model_ops build_dir true model)
  = model_ops build_dir false model.
Proof.
  unfold model_ops. cbv zeta. cbn [app].
  rewrite 2!filter_cons_True by apply dockerfile_path_not_sh.
  rewrite 2!filter_cons_True by apply cloudbuild_path_not_sh.
  rewrite 3!filter_cons_False
    by (unfold on_sh_file; cbn [op_file]; rewrite build_script_path_sh; discriminate).
  reflexivity.
Qed.

Lemma filter_not_sh_build_all_ops (build_dir : pystr) (build_scripts : list pystr) :
  filter (λ op, on_sh_file op = false) (build_all_ops build_dir build_scripts) = [].
Proof.
  assert (Hsh : ∀ op, op_file op = Some (build_all_path build_dir) →
                      ¬ on_sh_file op = false).
  { intros op Hop. unfold on_sh_file. rewrite Hop, build_all_path_sh. discriminate. }
  unfold build_all_ops. rewrite !filter_app.
  rewrite 3!filter_cons_False by (apply Hsh; reflexivity).
  rewrite !filter_nil, app_nil_r. cbn [app].
  induction build_scripts as [|script rest IH]; [reflexivity|].
  rewrite fmap_cons, filter_cons_False by (apply Hsh; reflexivity). exact IH.
Qed.

(** Without scripts the run performs the operations of the run with
    scripts that are not on [.sh] files, in the same order. *)
Lemma filter_not_sh_generate_ops (models : list pystr) (build_dir : pystr) :
  filter (λ op, on_sh_file op = false) (generate_ops models build_dir true)
  = generate_ops models build_dir false.
Proof.
  unfold generate_ops. rewrite filter_cons_True by reflexivity. f_equal.
  rewrite filter_app. cbn [script_paths]. rewrite app_nil_r.
  replace (filter (λ op, on_sh_file op = false)
             match (λ model, build_script_path build_dir (get_model_id model)) <$> models with
             | [] => []
             | p :: ps => build_all_ops build_dir (p :: ps)
             end) with (@nil fsop).
  - rewrite app_nil_r. induction models as [|model models IH]; [reflexivity|].
    rewrite !bind_cons, filter_app, filter_not_sh_model_ops, IH. reflexivity.
  - destruct models as [|model models]; [reflexivity|].
    cbn [fmap list_fmap]. symmetry. apply filter_not_sh_build_all_ops.
Qed.

Lemma Forall_filter_not_sh (ops : list fsop) :
  Forall (λ op, on_sh_file op = false) (filter (λ op, on_sh_file op = false) ops).
Proof. apply Forall_forall. intros op Hop. apply list_elem_of_filter in Hop as [Hop _]. exact Hop. Qed.

End NoScripts.

(** C7. With script generation suppressed, a run without faults performs
    exactly the operations of the run with scripts that are not on a file
    named [*.sh] (the per-model scripts and [build-all.sh] are), in the same
    order: no [.sh] file is created or changed, and every other file, the
    Dockerfiles and build configurations among them, ends up the same as
    with scripts enabled. *)
Theorem no_build_scripts_frame `{P : Platform} (Hff : fault_free P)
    (models : list pystr) (build_dir : pystr) (w : world) :
  ∃ w0 w1 ops0 ops1,
    generate_files models build_dir false w = (Ok tt, w0)
    ∧ generate_files models build_dir true w = (Ok tt, w1)
    ∧ oplog w0 = oplog w ++ ops0
    ∧ oplog w1 = oplog w ++ ops1
    ∧ ops0 = filter (λ op, on_sh_file op = false) ops1
    ∧ Forall (λ op, on_sh_file op = false) ops0
    ∧ Forall (λ model,
        OpWrite (path_join build_dir (str "Dockerfile-" ++ get_model_id model))
          (render_dockerfile model []) ∈ ops0
        ∧ OpWrite (path_join build_dir (get_model_id model ++ str "-cloudbuild.yaml"))
            (render_cloudbuild (get_model_id model)) ∈ ops0) models
    ∧ (∀ p, endswith p (str ".sh") = true → files w0 !! p = files w !! p)
    ∧ (∀ p, endswith p (str ".sh") = false → files w0 !! p = files w1 !! p).
Proof.
  exists (add_stdout (generate_line <$> models)
            (run_ops (generate_ops models build_dir false) w)),
         (add_stdout (generate_line <$> models)
            (run_ops (generate_ops models build_dir true) w)),
         (generate_ops models build_dir false), (generate_ops models build_dir true).
  assert (Hnot : Forall (λ op, on_sh_file op = false) (generate_ops models build_dir false)).
  { rewrite <- filter_not_sh_generate_ops. apply Forall_filter_not_sh. }
  split_and!.
  - apply generate_files_ok, Hff.
  - apply generate_files_ok, Hff.
  - cbn [oplog add_stdout]. apply oplog_run_ops.
  - cbn [oplog add_stdout]. apply oplog_run_ops.
  - symmetry. apply filter_not_sh_generate_ops.
  - exact Hnot.
  - apply Forall_forall. intros model Hmodel.
    assert (Hin : ∀ op, op ∈ model_ops build_dir false model →
                        op ∈ generate_ops models build_dir false).
    { intros op Hop. unfold generate_ops. right. apply elem_of_app. left.
      apply list_elem_of_bind. exists model. split; assumption. }
    split; apply Hin; unfold model_ops; cbv zeta; rewrite app_nil_r.
    + right. left.
    + do 3 right. left.
  - intros p Hp. cbn [files add_stdout]. apply files_run_ops_untouched.
    eapply Forall_impl; [exact Hnot|]. intros op Hop Hfile.
    unfold on_sh_file in Hop. rewrite Hfile in Hop. congruence.
  - intros p Hp. cbn [files add_stdout]. rewrite !files_run_ops.
    rewrite <- filter_not_sh_generate_ops. rewrite list_filter_filter_l; [reflexivity|].
    intros op Hfile. unfold on_sh_file. rewrite Hfile. exact Hp.
Qed.

Lemma no_build_scripts_frame_witness :
  ∃ w0 w1 ops0 ops1,
    @generate_files quiet [str "gemma:2b"] (str "./build") false empty_world = (Ok tt, w0)
    ∧ @generate_files quiet [str "gemma:2b"] (str "./build") true empty_world = (Ok tt, w1)
    ∧ oplog w0 = oplog empty_world ++ ops0
    ∧ oplog w1 = oplog empty_world ++ ops1
    ∧ ops0 = filter (λ op, on_sh_file op = false) ops1
    ∧ Forall (λ op, on_sh_file op = false) ops0
    ∧ Forall (λ model,
        OpWrite (path_join (str "./build") (str "Dockerfile-" ++ @get_model_id quiet model))
          (render_dockerfile model []) ∈ ops0
        ∧ OpWrite (path_join (str "./build") (@get_model_id quiet model ++ str "-cloudbuild.yaml"))
            (render_cloudbuild (@get_model_id quiet model)) ∈ ops0) [str "gemma:2b"]
    ∧ (∀ p, endswith p (str ".sh") = true → files w0 !! p = files empty_world !! p)
    ∧ (∀ p, endswith p (str ".sh") = false → files w0 !! p = files w1 !! p).
Proof.
  apply (@no_build_scripts_frame quiet). intros op w. reflexivity.
Defined.

(** C8. Nothing in the program catches an [OSError] of the file system.
    Whatever the platform refuses, a run of [generate_files] either
    performs every operation of [generate_ops] (directory, then the models'
    files in order, then the master script), or stops at the first refused
    one: the [OSError] leaves [generate_files] and [main] alike, in the
    world that operation was attempted in.  The operations before it have
    taken effect and the files are as they left them (nothing is cleaned
    up), none after it is attempted (so no later model is processed), and
    no command is launched. *)
Theorem fs_errors_propagate `{P : Platform} (models_str build_dir : pystr)
    (submit no_build_scripts : bool) (w : world) :
  match generate_files (parse_models models_str) build_dir (negb no_build_scripts) w with
  | (Ok _, w') =>
      oplog w' = oplog w
                 ++ generate_ops (parse_models models_str) build_dir (negb no_build_scripts)
  | (Raise e, w') =>
      main models_str build_dir submit no_build_scripts w = (Raise e, w')
      ∧ ∃ done op rest errno,
          generate_ops (parse_models models_str) build_dir (negb no_build_scripts)
          = done ++ op :: rest
          ∧ e = OSError errno
          ∧ fs_fault op w' = Some errno
          ∧ oplog w' = oplog w ++ done
          ∧ files w' = files (run_ops done w)
          ∧ dom (files w) ⊆ dom (files w')
          ∧ procs w' = procs w
  end.
Proof.
  pose proof (follows_generate_files (parse_models models_str) build_dir
                (negb no_build_scripts) w) as H.
  destruct (generate_files (parse_models models_str) build_dir (negb no_build_scripts) w)
    as [[u|e] w'] eqn:E.
  - destruct H as [_ [printed ->]]. cbn [oplog add_stdout]. apply oplog_run_ops.
  - split.
    + unfold main, bind. cbv zeta. rewrite E. reflexivity.
    + destruct H as (done & op & rest & errno & Hops & He & Hfault & [printed Hw]).
      exists done, op, rest, errno. split_and!; [exact Hops | exact He | exact Hfault | ..];
        rewrite Hw; cbn [oplog files procs add_stdout].
      * apply oplog_run_ops.
      * reflexivity.
      * rewrite dom_files_run_ops. apply union_subseteq_l.
      * apply procs_run_ops.
Qed.

(** A run on a platform that refuses to open the second model's Dockerfile:
    the first model's three files are there, the error is [EACCES], and
    nothing of the second model, no master script and no submission
    follows. *)
Example fs_errors_propagate_read_only :
  let RO := read_only (str "./build/Dockerfile-b") in
  ∃ w', @main RO (str "a,b") (str "./build") true false empty_world = (Raise (OSError 13), w')
    ∧ opened (oplog w')
      = [str "./build/Dockerfile-a"; str "./build/a-cloudbuild.yaml"; str "./build/build-a.sh"]
    ∧ (content <$> files w' !! str "./build/Dockerfile-a") = Some (render_dockerfile (str "a") [])
    ∧ files w' !! str "./build/Dockerfile-b" = None
    ∧ files w' !! str "./build/build-all.sh" = None
    ∧ procs w' = [].
Proof.
  eexists. split_and!; vm_compute; reflexivity.
Qed.

(** A run on a platform that refuses to create the build directory: the
    error leaves [main] at once and nothing is written, printed or
    submitted. *)
Example fs_errors_propagate_no_mkdir :
  @main no_mkdir (str "a,b") (str "./build") true false empty_world
  = (Raise (OSError 13), empty_world).
Proof. vm_compute. reflexivity. Qed.

(** ** The master script *)

Section BuildAll.
Context `{P : Platform}.

Lemma files_run_ops_writes (path : pystr) (datas : list pystr) (w : world) :
  files (run_ops ((λ d, OpWrite path (d ++ nl)) <$> datas) w) !! path
  = (λ f, File (content f ++ concat ((λ d, d ++ nl) <$> datas)) (mode f)) <$> files w !! path.
Proof.
  revert w. induction datas as [|d datas IH]; intros w.
  - cbn. destruct (files w !! path) as [[c m]|]; cbn; rewrite ?app_nil_r; reflexivity.
  - rewrite fmap_cons.
    change (run_ops (?op :: ?ops) w) with (run_ops ops (apply_op op w)).
    rewrite IH, files_apply_op. cbn [op_file]. rewrite decide_True by reflexivity.
    destruct (files w !! path) as [[c m]|]; cbn; rewrite <- ?app_assoc; reflexivity.
Qed.

Lemma files_run_ops_build_all (build_dir : pystr) (build_scripts : list pystr) (w : world) :
  files (run_ops (build_all_ops build_dir build_scripts) w) !! build_all_path build_dir
  = Some (File (build_all_header ++ concat ((λ script, script ++ nl) <$> build_scripts)) 493).
Proof.
  unfold build_all_ops. rewrite !run_ops_app.
  cbn [run_ops foldl]. rewrite files_apply_op. cbn [op_file].
  rewrite decide_True by reflexivity.
  change (foldl (λ w op, apply_op op w) ?w0 ?ops) with (run_ops ops w0).
  rewrite files_run_ops_writes, !files_apply_op. cbn [op_file].
  rewrite !decide_True by reflexivity. reflexivity.
Qed.

End BuildAll.

(** C9, as the code has it.  With scripts enabled and at least one model, a
    run without faults ends by writing [build-all.sh]: after every model's
    files, it opens the master script once, writes the header and one line
    per model, the path of that model's build script, in list order, and
    makes it executable (mode 0o755).  That is the file's final content. *)
Theorem build_all_written `{P : Platform} (Hff : fault_free P)
    (models : list pystr) (build_dir : pystr) (w : world) (Hne : models ≠ []) :
  ∃ w' before,
    generate_files models build_dir true w = (Ok tt, w')
    ∧ oplog w'
      = oplog w ++ before
        ++ [ OpOpenW (path_join build_dir (str "build-all.sh"));
             OpWrite (path_join build_dir (str "build-all.sh"))
               (str "#!/bin/bash" ++ nl ++ str "set -e" ++ nl ++ nl) ]
        ++ ((λ model, OpWrite (path_join build_dir (str "build-all.sh"))
                        (path_join build_dir (str "build-" ++ get_model_id model ++ str ".sh")
                         ++ nl)) <$> models)
        ++ [ OpChmod (path_join build_dir (str "build-all.sh")) 493 ]
    ∧ before = OpMakedirs build_dir :: (models ≫= model_ops build_dir true)
    ∧ files w' !! path_join build_dir (str "build-all.sh")
      = Some (File (str "#!/bin/bash" ++ nl ++ str "set -e" ++ nl ++ nl
                    ++ concat ((λ model,
                                 path_join build_dir
                                   (str "build-" ++ get_model_id model ++ str ".sh") ++ nl)
                               <$> models))
                   493).
Proof.
  destruct models as [|model models]; [contradiction|].
  assert (Hops : generate_ops (model :: models) build_dir true
                 = (OpMakedirs build_dir :: ((model :: models) ≫= model_ops build_dir true))
                   ++ build_all_ops build_dir
                        ((λ model, build_script_path build_dir (get_model_id model))
                         <$> model :: models)).
  { reflexivity. }
  eexists _, (OpMakedirs build_dir :: ((model :: models) ≫= model_ops build_dir true)).
  split_and!.
  - apply generate_files_ok, Hff.
  - cbn [oplog add_stdout]. rewrite oplog_run_ops, Hops. unfold build_all_ops.
    rewrite <- list_fmap_compose, <- ?app_assoc. reflexivity.
  - reflexivity.
  - cbn [files add_stdout].
    change (path_join build_dir (str "build-all.sh")) with (build_all_path build_dir).
    rewrite Hops, run_ops_app, files_run_ops_build_all.
    rewrite <- list_fmap_compose. unfold build_all_header. rewrite <- ?app_assoc. reflexivity.
Qed.

Lemma build_all_written_witness :
  ∃ w' before,
    @generate_files quiet [str "gemma:2b"; str "llama3.1"] (str "./build") true empty_world
    = (Ok tt, w')
    ∧ oplog w'
      = oplog empty_world ++ before
        ++ [ OpOpenW (path_join (str "./build") (str "build-all.sh"));
             OpWrite (path_join (str "./build") (str "build-all.sh"))
               (str "#!/bin/bash" ++ nl ++ str "set -e" ++ nl ++ nl) ]
        ++ ((λ model, OpWrite (path_join (str "./build") (str "build-all.sh"))
                        (path_join (str "./build")
                           (str "build-" ++ @get_model_id quiet model ++ str ".sh")
                         ++ nl)) <$> [str "gemma:2b"; str "llama3.1"])
        ++ [ OpChmod (path_join (str "./build") (str "build-all.sh")) 493 ]
    ∧ before = OpMakedirs (str "./build")
               :: ([str "gemma:2b"; str "llama3.1"] ≫= @model_ops quiet (str "./build") true)
    ∧ files w' !! path_join (str "./build") (str "build-all.sh")
      = Some (File (str "#!/bin/bash" ++ nl ++ str "set -e" ++ nl ++ nl
                    ++ concat ((λ model,
                                 path_join (str "./build")
                                   (str "build-" ++ @get_model_id quiet model ++ str ".sh")
                                 ++ nl)
                               <$> [str "gemma:2b"; str "llama3.1"]))
                   493).
Proof.
  apply (@build_all_written quiet).
  - intros op w. reflexivity.
  - discriminate.
Defined.

(** C9 fails as stated: with scripts enabled but no model, [generate_files]
    only makes the directory; no [build-all.sh] is written. *)
Lemma no_models_no_build_all :
  ∃ w', @generate_files quiet [] (str "./build") true empty_world = (Ok tt, w')
    ∧ oplog w' = [OpMakedirs (str "./build")]
    ∧ files w' !! @build_all_path (str "./build") = None.
Proof.
  eexists. split_and!; vm_compute; reflexivity.
Qed.

(** C10. The model list is the comma-separated pieces of the argument, each
    with the white space at its two ends removed and nothing else: no model
    begins or ends with white space.  [main] uses its argument through that
    list only, so [a, b] and [a,b] give the same models and the same run. *)
Theorem parse_models_strips `{P : Platform} (models_str : pystr) :
  (∃ pieces,
     join_with comma pieces = models_str
     ∧ Forall (λ piece, comma ∉ piece) pieces
     ∧ parse_models models_str = strip <$> pieces
     ∧ Forall2 (λ piece model,
         ∃ k1 k2, piece = k1 ++ model ++ k2
                  ∧ Forall (λ c, isspace c = true) k1
                  ∧ Forall (λ c, isspace c = true) k2
                  ∧ no_outer_space model)
         pieces (parse_models models_str))
  ∧ parse_models (str "a, b") = [str "a"; str "b"]
  ∧ parse_models (str "a,b") = [str "a"; str "b"]
  ∧ (∀ build_dir submit no_build_scripts w,
       main (str "a, b") build_dir submit no_build_scripts w
       = main (str "a,b") build_dir submit no_build_scripts w)
  ∧ (∀ other build_dir submit no_build_scripts w,
       parse_models other = parse_models models_str →
       main other build_dir submit no_build_scripts w
       = main models_str build_dir submit no_build_scripts w).
Proof.
  split_and!.
  - exists (split comma models_str). split_and!.
    + apply join_split.
    + apply split_no_sep.
    + reflexivity.
    + unfold parse_models. apply Forall2_fmap_r, Forall_Forall2_diag, Forall_forall.
      intros piece _. destruct (strip_spec piece) as (k1 & k2 & Hk & H1 & H2).
      exists k1, k2. split_and!; [exact Hk | exact H1 | exact H2 | apply strip_no_outer_space].
  - vm_compute. reflexivity.
  - vm_compute. reflexivity.
  - intros build_dir submit no_build_scripts w. unfold main.
    replace (parse_models (str "a, b")) with (parse_models (str "a,b"))
      by (vm_compute; reflexivity).
    reflexivity.
  - intros other build_dir submit no_build_scripts w Heq. unfold main. rewrite Heq.
    reflexivity.
Qed.

Lemma parse_models_strips_witness :
  @main quiet (str " a ,b") (str "./build") false false empty_world
  = @main quiet (str "a,b") (str "./build") false false empty_world.
Proof.
  apply (proj2 (proj2 (proj2 (proj2 (@parse_models_strips quiet (str "a,b")))))).
  vm_compute. reflexivity.
Defined.

(** * Further properties of the program *)

(** ** Tokens and model lists *)

(** X1. The sanitizer keeps the length of the identifier, and the
    identifiers it leaves unchanged are exactly those made of alphanumeric
    characters and hyphens. *)
Theorem get_model_id_fixed_points `{P : Platform} (s : pystr) :
  length (get_model_id s) = length s
  ∧ (get_model_id s = s ↔ Forall (λ c, isalnum c = true ∨ c = hyphen) s).
Proof.
  split; [rewrite get_model_id_fmap; apply length_fmap|]. split.
  - intros Heq. rewrite <- Heq. apply get_model_id_chars.
  - intros HF. rewrite get_model_id_fmap.
    induction HF as [|c s Hc _ IH]; [reflexivity|].
    rewrite fmap_cons, IH. f_equal.
    destruct Hc as [-> | ->]; [reflexivity | rewrite isalnum_hyphen; reflexivity].
Qed.

Lemma length_split (sep : N) (s : pystr) :
  length (split sep s) = S (length (filter (λ c, c = sep) s)).
Proof.
  induction s as [|c s IH]; [reflexivity|]. cbn [split].
  destruct (N.eqb_spec c sep) as [->|Hc].
  - rewrite filter_cons_True by reflexivity. cbn. rewrite IH. reflexivity.
  - rewrite filter_cons_False by exact Hc.
    destruct (split sep s) as [|h t]; [discriminate | exact IH].
Qed.

Lemma strip_elem (c : N) (s : pystr) : c ∈ strip s → c ∈ s.
Proof.
  intros Hc. destruct (strip_spec s) as (k1 & k2 & Hs & _ & _).
  rewrite Hs. apply elem_of_app. right. apply elem_of_app. left. exact Hc.
Qed.

Lemma length_parse_models (models_str : pystr) :
  length (parse_models models_str) = S (length (filter (λ c, c = comma) models_str)).
Proof. unfold parse_models. rewrite length_fmap. apply length_split. Qed.

Lemma parse_models_no_comma (models_str : pystr) :
  Forall (λ model, comma ∉ model) (parse_models models_str).
Proof.
  unfold parse_models. apply Forall_fmap.
  eapply Forall_impl; [apply (split_no_sep comma)|].
  intros piece Hpiece Hin. apply Hpiece. cbn in Hin. apply strip_elem, Hin.
Qed.

Lemma parse_models_not_nil (models_str : pystr) : parse_models models_str ≠ [].
Proof.
  intros Hnil. pose proof (length_parse_models models_str) as Hlen.
  rewrite Hnil in Hlen. discriminate.
Qed.

(** X2. The model list has one entry more than the argument has commas: it
    is never empty (the empty argument gives the one model with the empty
    name), and no name holds a comma. *)
Theorem parse_models_count (models_str : pystr) :
  length (parse_models models_str) = S (length (filter (λ c, c = comma) models_str))
  ∧ parse_models [] = [[]]
  ∧ Forall (λ model, comma ∉ model) (parse_models models_str).
Proof.
  split_and!; [apply length_parse_models | reflexivity | apply parse_models_no_comma].
Qed.

Lemma lstrip_id (s : pystr) : (∀ c, head s = Some c → isspace c = false) → lstrip s = s.
Proof.
  destruct s as [|c s]; [reflexivity|]. intros Hh. cbn.
  rewrite (Hh c) by reflexivity. reflexivity.
Qed.

(** What [strip] leaves unchanged. *)
Lemma strip_id (s : pystr) : no_outer_space s → strip s = s.
Proof.
  intros [Hh Hl]. unfold strip, rstrip. rewrite (lstrip_id s Hh).
  rewrite lstrip_id; [apply reverse_involutive|].
  intros c Hc. rewrite head_reverse in Hc. apply Hl, Hc.
Qed.

Lemma split_join (sep : N) (pieces : list pystr) :
  pieces ≠ [] → Forall (λ piece, sep ∉ piece) pieces →
  split sep (join_with sep pieces) = pieces.
Proof.
  intros Hne HF. induction HF as [|piece rest Hpiece Hrest IH]; [contradiction|]. clear Hne.
  destruct rest as [|piece' rest'].
  - cbn [join_with]. clear IH Hrest.
    induction piece as [|c piece IHp]; [reflexivity|]. cbn [split].
    destruct (N.eqb_spec c sep) as [->|_]; [exfalso; apply Hpiece; left|].
    rewrite IHp; [reflexivity|]. intros Hin. apply Hpiece. right. exact Hin.
  - specialize (IH ltac:(discriminate)).
    change (join_with sep (piece :: piece' :: rest'))
      with (piece ++ sep :: join_with sep (piece' :: rest')).
    induction piece as [|c piece IHp].
    + cbn [app split]. rewrite N.eqb_refl, IH. reflexivity.
    + cbn [app split]. destruct (N.eqb_spec c sep) as [->|_]; [exfalso; apply Hpiece; left|].
      rewrite IHp; [reflexivity|]. intros Hin. apply Hpiece. right. exact Hin.
Qed.

(** X3. Model lists are in normal form: joining the parsed models with
    commas and parsing again gives the same models. *)
Theorem parse_models_join (models_str : pystr) :
  parse_models (join_with comma (parse_models models_str)) = parse_models models_str.
Proof.
  unfold parse_models at 1.
  rewrite split_join; [|apply parse_models_not_nil | apply parse_models_no_comma].
  unfold parse_models. rewrite <- list_fmap_compose. apply list_fmap_ext.
  intros _ piece _. cbn. apply strip_id, strip_no_outer_space.
Qed.

(** ** What submitting touches *)

Section SubmitFrame.
Context `{P : Platform}.

Lemma submit_model_spawn_failed (build_dir model : pystr) (errno : N) (w : world) :
  proc_run (gcloud_cmd build_dir model)
    (add_stdout [ str "Submitting build for model: " ++ model
                    ++ str " (ID: " ++ get_model_id model ++ str ")" ] w)
  = SpawnFailed errno →
  submit_model build_dir tt model w
  = (Raise (OSError errno),
     World (files w) (dirs w)
       (stdout w ++ [ str "Submitting build for model: " ++ model
                        ++ str " (ID: " ++ get_model_id model ++ str ")" ])
       (procs w ++ [gcloud_cmd build_dir model]) (oplog w)).
Proof.
  intros Hrun. unfold submit_model. cbv zeta. rewrite bind_print.
  unfold try_except_CalledProcessError, bind, subprocess_run_check.
  rewrite Hrun. reflexivity.
Qed.

(** Every outcome of one submission: the command is launched once, and only
    a failure to launch it raises. *)
Lemma submit_model_cases (build_dir model : pystr) (w : world) :
  ∃ r w', submit_model build_dir tt model w = (r, w')
    ∧ files w' = files w ∧ dirs w' = dirs w ∧ oplog w' = oplog w
    ∧ procs w' = procs w ++ [gcloud_cmd build_dir model]
    ∧ (r = Ok tt ∨ ∃ errno, r = Raise (OSError errno)).
Proof.
  destruct (proc_run (gcloud_cmd build_dir model)
              (add_stdout [ str "Submitting build for model: " ++ model
                              ++ str " (ID: " ++ get_model_id model ++ str ")" ] w))
    as [rc|errno] eqn:Hrun.
  - rewrite (submit_model_exited _ _ _ _ Hrun). eexists _, _.
    split_and!; [reflexivity.. | left; reflexivity].
  - rewrite (submit_model_spawn_failed _ _ _ _ Hrun). eexists _, _.
    split_and!; [reflexivity.. | right; eexists; reflexivity].
Qed.

Lemma submit_builds_effects (models : list pystr) (build_dir : pystr) (w : world) :
  ∃ r w' n, submit_builds models build_dir w = (r, w')
    ∧ files w' = files w ∧ dirs w' = dirs w ∧ oplog w' = oplog w
    ∧ procs w' = procs w ++ take n (gcloud_cmd build_dir <$> models)
    ∧ (r = Ok tt ∧ n = length models
       ∨ ∃ errno, r = Raise (OSError errno) ∧ 0 < n ≤ length models).
Proof.
  unfold submit_builds. revert w. induction models as [|model models IH]; intros w.
  - exists (Ok tt), w, 0. cbn. rewrite app_nil_r.
    split_and!; [reflexivity.. | left; split; reflexivity].
  - cbn [for_in]. unfold bind.
    destruct (submit_model_cases build_dir model w)
      as (r & w1 & -> & Hf & Hd & Ho & Hp & [-> | [errno ->]]).
    + destruct (IH w1) as (r' & w' & n & -> & Hf' & Hd' & Ho' & Hp' & Hr).
      exists r', w', (S n). split_and!; [reflexivity | congruence.. | |].
      * rewrite Hp', Hp, <- app_assoc. reflexivity.
      * destruct Hr as [[-> ->] | (errno & -> & Hn)].
        -- left. split; reflexivity.
        -- right. exists errno. split; [reflexivity | cbn; lia].
    + exists (Raise (OSError errno)), w1, 1.
      split_and!; [reflexivity | assumption.. | |].
      * rewrite Hp. cbn. rewrite take_0. reflexivity.
      * right. exists errno. split; [reflexivity | cbn; lia].
Qed.

End SubmitFrame.


(** ** Which files a run touches *)

Section Touched.
Context `{P : Platform}.

Lemma cloudbuild_path_inj (build_dir model model' : pystr) :
  cloudbuild_path build_dir (get_model_id model)
  = cloudbuild_path build_dir (get_model_id model') →
  get_model_id model = get_model_id model'.
Proof.
  intros Heq. apply path_join_inj in Heq; [|apply cloudbuild_name_relative..].
  apply app_inv_tail in Heq. exact Heq.
Qed.

Lemma build_script_path_inj (build_dir t t' : pystr) :
  build_script_path build_dir t = build_script_path build_dir t' → t = t'.
Proof.
  intros Heq. apply path_join_inj in Heq; [|apply build_script_name_relative..].
  apply app_inv_head, app_inv_tail in Heq. exact Heq.
Qed.

Lemma cloudbuild_path_ne_build_script (build_dir model t : pystr) :
  cloudbuild_path build_dir (get_model_id model) ≠ build_script_path build_dir t.
Proof.
  intros Heq.
  apply path_join_inj in Heq; [|apply cloudbuild_name_relative | apply build_script_name_relative].
  apply (f_equal last) in Heq. rewrite app_assoc, !last_app in Heq. discriminate.
Qed.

Lemma cloudbuild_path_ne_build_all (build_dir model : pystr) :
  cloudbuild_path build_dir (get_model_id model) ≠ build_all_path build_dir.
Proof.
  intros Heq. apply path_join_inj in Heq; [|apply cloudbuild_name_relative | discriminate].
  apply (f_equal last) in Heq. rewrite last_app in Heq. discriminate.
Qed.

(** The one token whose build script is the master script. *)
Lemma build_script_path_build_all (build_dir t : pystr) :
  build_script_path build_dir t = build_all_path build_dir ↔ t = str "all".
Proof.
  split; [|intros ->; reflexivity].
  intros Heq. apply path_join_inj in Heq; [|apply build_script_name_relative | discriminate].
  change (str "build-all.sh") with (str "build-" ++ str "all" ++ str ".sh") in Heq.
  apply app_inv_head, app_inv_tail in Heq. exact Heq.
Qed.

Lemma model_ops_files (build_dir : pystr) (scripts : bool) (model : pystr) (op : fsop)
    (q : pystr) :
  op ∈ model_ops build_dir scripts model → op_file op = Some q →
  q ∈ [ dockerfile_path build_dir (get_model_id model);
        cloudbuild_path build_dir (get_model_id model);
        build_script_path build_dir (get_model_id model) ].
Proof.
  unfold model_ops. cbv zeta. intros Hop Hq.
  apply elem_of_app in Hop as [Hop|Hop].
  - repeat (apply elem_of_cons in Hop as [->|Hop]); cbn in Hq;
      try (injection Hq as <-).
    + left.
    + left.
    + right. left.
    + right. left.
    + apply elem_of_nil in Hop. contradiction.
  - destruct scripts; [|apply elem_of_nil in Hop; contradiction].
    repeat (apply elem_of_cons in Hop as [->|Hop]); cbn in Hq;
      try (injection Hq as <-); try (do 2 right; left).
    apply elem_of_nil in Hop. contradiction.
Qed.

Lemma build_all_ops_files (build_dir : pystr) (build_scripts : list pystr) (op : fsop) :
  op ∈ build_all_ops build_dir build_scripts → op_file op = Some (build_all_path build_dir).
Proof.
  unfold build_all_ops. intros Hop.
  apply elem_of_app in Hop as [Hop|Hop]; [|apply elem_of_app in Hop as [Hop|Hop]].
  - repeat (apply elem_of_cons in Hop as [->|Hop]); try reflexivity.
    apply elem_of_nil in Hop. contradiction.
  - apply list_elem_of_fmap in Hop as (script & -> & _). reflexivity.
  - apply list_elem_of_singleton in Hop as ->. reflexivity.
Qed.

(** The files the operations of a run are on. *)
Lemma generate_ops_files (models : list pystr) (build_dir : pystr) (scripts : bool)
    (op : fsop) (q : pystr) :
  op ∈ generate_ops models build_dir scripts → op_file op = Some q →
  q ∈ (models ≫= λ model,
         [ dockerfile_path build_dir (get_model_id model);
           cloudbuild_path build_dir (get_model_id model);
           build_script_path build_dir (get_model_id model) ])
  ∨ q = build_all_path build_dir.
Proof.
  unfold generate_ops. intros Hop Hq.
  apply elem_of_cons in Hop as [->|Hop]; [discriminate|].
  apply elem_of_app in Hop as [Hop|Hop].
  - left. apply list_elem_of_bind in Hop as (model & Hop & Hmodel).
    apply list_elem_of_bind. exists model. split; [|exact Hmodel].
    eapply model_ops_files; eassumption.
  - right. destruct (script_paths build_dir scripts models) as [|path paths];
      [apply elem_of_nil in Hop; contradiction|].
    apply build_all_ops_files in Hop. congruence.
Qed.

(** However a run ends, its world is the initial one after a prefix of the
    run's operations, with some lines printed. *)
Lemma generate_files_prefix (models : list pystr) (build_dir : pystr) (scripts : bool)
    (w : world) :
  ∃ r w' done rest printed,
    generate_files models build_dir scripts w = (r, w')
    ∧ generate_ops models build_dir scripts = done ++ rest
    ∧ w' = add_stdout printed (run_ops done w).
Proof.
  pose proof (follows_generate_files models build_dir scripts w) as H.
  destruct (generate_files models build_dir scripts w) as [[u|e] w'].
  - destruct H as [_ [printed Hw]].
    exists (Ok u), w', (generate_ops models build_dir scripts), [], printed.
    rewrite app_nil_r. split_and!; [reflexivity.. | exact Hw].
  - destruct H as (done & op & rest & errno & Hops & _ & _ & [printed Hw]).
    exists (Raise e), w', done, (op :: rest), printed.
    split_and!; [reflexivity | exact Hops | exact Hw].
Qed.

End Touched.

(** X5. Whatever the platform does and however the run ends,
    [generate_files] launches no command and leaves every file alone
    except the artifacts': a path that is none of the models' Dockerfile,
    build configuration and build script paths, nor the master script's,
    holds after the run what it held before. *)
Theorem generate_files_frame `{P : Platform} (models : list pystr) (build_dir : pystr)
    (scripts : bool) (w : world) (p : pystr) :
  p ∉ (models ≫= λ model,
         [ dockerfile_path build_dir (get_model_id model);
           cloudbuild_path build_dir (get_model_id model);
           build_script_path build_dir (get_model_id model) ]) →
  p ≠ build_all_path build_dir →
  ∃ r w', generate_files models build_dir scripts w = (r, w')
    ∧ files w' !! p = files w !! p
    ∧ procs w' = procs w.
Proof.
  intros Hp Hall.
  destruct (generate_files_prefix models build_dir scripts w)
    as (r & w' & done & rest & printed & Hrun & Hops & ->).
  eexists r, _. split_and!; [exact Hrun | |].
  - cbn [files add_stdout]. apply files_run_ops_untouched, Forall_forall.
    intros op Hop Hfile.
    assert (Hin : op ∈ generate_ops models build_dir scripts).
    { rewrite Hops. apply elem_of_app. left. exact Hop. }
    destruct (generate_ops_files _ _ _ _ _ Hin Hfile) as [Hq | Hq]; [exact (Hp Hq) | exact (Hall Hq)].
  - cbn [procs add_stdout]. apply procs_run_ops.
Qed.

Lemma generate_files_frame_witness :
  ∃ r w', @generate_files (read_only (str "./build/gemma-2b-cloudbuild.yaml"))
            [str "gemma:2b"] (str "./build") true empty_world = (r, w')
    ∧ files w' !! str "./build/notes.txt" = files empty_world !! str "./build/notes.txt"
    ∧ procs w' = procs empty_world.
Proof.
  apply (@generate_files_frame (read_only (str "./build/gemma-2b-cloudbuild.yaml"))
           [str "gemma:2b"] (str "./build") true empty_world (str "./build/notes.txt")).
  - by_decide.
  - by_decide.
Defined.

(** ** What the artifacts hold after a run *)

Section Contents.
Context `{P : Platform}.

Lemma dockerfile_path_inj (build_dir t t' : pystr) :
  dockerfile_path build_dir t = dockerfile_path build_dir t' → t = t'.
Proof.
  intros Heq. apply path_join_inj in Heq; [|apply dockerfile_name_relative..].
  apply app_inv_head in Heq. exact Heq.
Qed.

(** A model of a given token in a list: there is a last one. *)
Lemma last_with_token (t : pystr) (models : list pystr) :
  Exists (λ z, get_model_id z = t) models →
  ∃ pre last post,
    models = pre ++ last :: post
    ∧ get_model_id last = t
    ∧ Forall (λ z, get_model_id z ≠ t) post.
Proof.
  induction models as [|x models IH]; intros Hex; [inversion Hex|].
  destruct (decide (Exists (λ z, get_model_id z = t) models)) as [Hlater|Hnone].
  - destruct (IH Hlater) as (pre & last & post & -> & Hlast & Hpost).
    exists (x :: pre), last, post. split_and!; [reflexivity | exact Hlast | exact Hpost].
  - exists [], x, models. split_and!.
    + reflexivity.
    + inversion Hex as [? ? Hx | ? ? Hl]; [exact Hx | contradiction].
    + apply not_Exists_Forall in Hnone; [exact Hnone | intros z; apply _].
Qed.

Lemma generate_ops_split (pre : list pystr) (model : pystr) (post : list pystr)
    (build_dir : pystr) (scripts : bool) :
  generate_ops (pre ++ model :: post) build_dir scripts
  = (OpMakedirs build_dir :: (pre ≫= model_ops build_dir scripts))
    ++ model_ops build_dir scripts model
    ++ (post ≫= model_ops build_dir scripts)
    ++ match script_paths build_dir scripts (pre ++ model :: post) with
       | [] => []
       | paths => build_all_ops build_dir paths
       end.
Proof.
  unfold generate_ops. rewrite bind_app, bind_cons, <- !app_assoc. reflexivity.
Qed.

Lemma later_models_untouched (build_dir : pystr) (scripts : bool) (post : list pystr)
    (p : pystr) :
  Forall (λ z, p ≠ dockerfile_path build_dir (get_model_id z)
               ∧ p ≠ cloudbuild_path build_dir (get_model_id z)
               ∧ p ≠ build_script_path build_dir (get_model_id z)) post →
  Forall (λ op, op_file op ≠ Some p) (post ≫= model_ops build_dir scripts).
Proof.
  intros Hpost. apply Forall_forall. intros op Hop Hfile.
  apply list_elem_of_bind in Hop as (z & Hop & Hz).
  rewrite Forall_forall in Hpost. destruct (Hpost z Hz) as (Hd & Hc & Hs).
  pose proof (model_ops_files _ _ _ _ _ Hop Hfile) as Hq.
  repeat (apply elem_of_cons in Hq as [->|Hq]); [contradiction.. |].
  apply elem_of_nil in Hq. contradiction.
Qed.

Lemma master_untouched (build_dir : pystr) (paths : list pystr) (p : pystr) :
  p ≠ build_all_path build_dir →
  Forall (λ op, op_file op ≠ Some p)
    match paths with [] => [] | path :: rest => build_all_ops build_dir (path :: rest) end.
Proof.
  intros Hp. destruct paths as [|path paths]; [constructor|].
  apply Forall_forall. intros op Hop Hfile.
  apply build_all_ops_files in Hop. congruence.
Qed.

Lemma regroup_mid {A} (a d c s r : list A) :
  a ++ (d ++ c ++ s) ++ r = (a ++ d) ++ c ++ (s ++ r).
Proof. rewrite <- !app_assoc. reflexivity. Qed.

Lemma regroup_end {A} (a d s r : list A) : a ++ (d ++ s) ++ r = (a ++ d) ++ s ++ r.
Proof. rewrite <- !app_assoc. reflexivity. Qed.

(** Writing a script from scratch and making it executable. *)
Lemma files_run_ops_script (pre post : list fsop) (p data : pystr) (m : N) (w : world) :
  Forall (λ op, op_file op ≠ Some p) post →
  files (run_ops (pre ++ [OpOpenW p; OpWrite p data; OpChmod p m] ++ post) w) !! p
  = Some (File data m).
Proof.
  intros Hpost. rewrite !run_ops_app, files_run_ops_untouched by exact Hpost.
  cbn [run_ops foldl]. rewrite !files_apply_op. cbn [op_file].
  rewrite !decide_True by reflexivity. reflexivity.
Qed.

(** The Dockerfile of a token is that of the last model with the token. *)
Lemma dockerfile_written (pre : list pystr) (model : pystr) (post : list pystr)
    (build_dir : pystr) (scripts : bool) (w : world) :
  Forall (λ z, get_model_id z ≠ get_model_id model) post →
  ∃ m, files (run_ops (generate_ops (pre ++ model :: post) build_dir scripts) w)
       !! dockerfile_path build_dir (get_model_id model)
       = Some (File (render_dockerfile model []) m).
Proof.
  intros Hpost. rewrite generate_ops_split. unfold model_ops at 2. cbv zeta.
  change ([ OpOpenW ?d; OpWrite ?d ?x; OpOpenW ?c; OpWrite ?c ?y ] ++ ?s)
    with ([ OpOpenW d; OpWrite d x ] ++ ([ OpOpenW c; OpWrite c y ] ++ s)).
  rewrite <- (app_assoc _ ([_; _] ++ _)).
  apply files_run_ops_written. repeat (apply Forall_app; split).
  - repeat constructor; cbn; intros [= Heq];
      exact (cloudbuild_path_ne_dockerfile _ _ _ Heq).
  - destruct scripts; repeat constructor; cbn; intros [= Heq];
      exact (build_script_path_ne_dockerfile _ _ _ Heq).
  - apply later_models_untouched. eapply Forall_impl; [exact Hpost|].
    intros z Hz. split_and!.
    + intros Heq. apply dockerfile_path_inj in Heq. congruence.
    + intros Heq. exact (cloudbuild_path_ne_dockerfile _ _ _ (eq_sym Heq)).
    + intros Heq. exact (build_script_path_ne_dockerfile _ _ _ (eq_sym Heq)).
  - apply master_untouched. intros Heq.
    exact (build_all_path_ne_dockerfile _ _ (eq_sym Heq)).
Qed.

(** The build configuration of a model is the one rendered for its token. *)
Lemma cloudbuild_written (models : list pystr) (model : pystr) (build_dir : pystr)
    (scripts : bool) (w : world) :
  model ∈ models →
  ∃ m, files (run_ops (generate_ops models build_dir scripts) w)
       !! cloudbuild_path build_dir (get_model_id model)
       = Some (File (render_cloudbuild (get_model_id model)) m).
Proof.
  intros Hin.
  destruct (last_with_token (get_model_id model) models) as (pre & last & post & -> & Hlast & Hpost).
  { apply Exists_exists. exists model. split; [exact Hin | reflexivity]. }
  rewrite <- Hlast in *. clear Hin Hlast model.
  rewrite generate_ops_split. unfold model_ops at 2. cbv zeta.
  change ([ OpOpenW ?d; OpWrite ?d ?x; OpOpenW ?c; OpWrite ?c ?y ] ++ ?s)
    with ([ OpOpenW d; OpWrite d x ] ++ ([ OpOpenW c; OpWrite c y ] ++ s)).
  rewrite regroup_mid.
  apply files_run_ops_written. repeat (apply Forall_app; split).
  - destruct scripts; repeat constructor; cbn; intros [= Heq];
      exact (cloudbuild_path_ne_build_script _ _ _ (eq_sym Heq)).
  - apply later_models_untouched. eapply Forall_impl; [exact Hpost|].
    intros z Hz. split_and!.
    + apply cloudbuild_path_ne_dockerfile.
    + intros Heq. apply cloudbuild_path_inj in Heq. congruence.
    + apply cloudbuild_path_ne_build_script.
  - apply master_untouched, cloudbuild_path_ne_build_all.
Qed.

(** The build script of a model whose token is not [all] is the one
    rendered for its token, executable. *)
Lemma build_script_written (models : list pystr) (model : pystr) (build_dir : pystr)
    (w : world) :
  model ∈ models → get_model_id model ≠ str "all" →
  files (run_ops (generate_ops models build_dir true) w)
  !! build_script_path build_dir (get_model_id model)
  = Some (File (render_build_script build_dir (get_model_id model)) 493).
Proof.
  intros Hin Hall.
  destruct (last_with_token (get_model_id model) models) as (pre & last & post & -> & Hlast & Hpost).
  { apply Exists_exists. exists model. split; [exact Hin | reflexivity]. }
  rewrite <- Hlast in *. clear Hin Hlast model.
  rewrite generate_ops_split. unfold model_ops at 2. cbv zeta.
  rewrite regroup_end.
  apply files_run_ops_script. repeat (apply Forall_app; split).
  - apply later_models_untouched. eapply Forall_impl; [exact Hpost|].
    intros z Hz. split_and!.
    + apply build_script_path_ne_dockerfile.
    + intros Heq. exact (cloudbuild_path_ne_build_script _ _ _ (eq_sym Heq)).
    + intros Heq. apply build_script_path_inj in Heq. congruence.
  - apply master_untouched. intros Heq. apply build_script_path_build_all in Heq.
    contradiction.
Qed.

End Contents.

(** X6. After a run without faults, for every model of the list: its build
    configuration file holds the configuration rendered for its token; with
    scripts enabled and a token other than [all], its build script holds
    the script rendered for its token and has mode 0o755; and its
    Dockerfile is the one rendered for the last model of the list that has
    the same token. *)
Theorem artifact_contents `{P : Platform} (Hff : fault_free P) (models : list pystr)
    (build_dir : pystr) (scripts : bool) (w : world) (model : pystr) :
  model ∈ models →
  ∃ w' pre last post m m',
    generate_files models build_dir scripts w = (Ok tt, w')
    ∧ models = pre ++ last :: post
    ∧ get_model_id last = get_model_id model
    ∧ Forall (λ z, get_model_id z ≠ get_model_id model) post
    ∧ files w' !! dockerfile_path build_dir (get_model_id model)
      = Some (File (render_dockerfile last []) m)
    ∧ files w' !! cloudbuild_path build_dir (get_model_id model)
      = Some (File (render_cloudbuild (get_model_id model)) m')
    ∧ (scripts = true → get_model_id model ≠ str "all" →
       files w' !! build_script_path build_dir (get_model_id model)
       = Some (File (render_build_script build_dir (get_model_id model)) 493)).
Proof.
  intros Hin.
  destruct (last_with_token (get_model_id model) models)
    as (pre & last & post & Hmodels & Hlast & Hpost).
  { apply Exists_exists. exists model. split; [exact Hin | reflexivity]. }
  destruct (cloudbuild_written models model build_dir scripts w Hin) as [m' Hc].
  assert (Hd : ∃ m, files (run_ops (generate_ops models build_dir scripts) w)
                    !! dockerfile_path build_dir (get_model_id model)
                    = Some (File (render_dockerfile last []) m)).
  { rewrite Hmodels, <- Hlast. apply dockerfile_written. rewrite Hlast. exact Hpost. }
  destruct Hd as [m Hd].
  eexists _, pre, last, post, m, m'. split_and!.
  - apply generate_files_ok, Hff.
  - exact Hmodels.
  - exact Hlast.
  - exact Hpost.
  - exact Hd.
  - exact Hc.
  - intros -> Hall. cbn [files add_stdout]. apply build_script_written; assumption.
Qed.

Lemma artifact_contents_witness :
  ∃ w' pre last post m m',
    @generate_files quiet [str "a:b"; str "c"; str "a.b"] (str "./build") true empty_world
    = (Ok tt, w')
    ∧ [str "a:b"; str "c"; str "a.b"] = pre ++ last :: post
    ∧ @get_model_id quiet last = @get_model_id quiet (str "a:b")
    ∧ Forall (λ z, @get_model_id quiet z ≠ @get_model_id quiet (str "a:b")) post
    ∧ files w' !! dockerfile_path (str "./build") (@get_model_id quiet (str "a:b"))
      = Some (File (render_dockerfile last []) m)
    ∧ files w' !! cloudbuild_path (str "./build") (@get_model_id quiet (str "a:b"))
      = Some (File (render_cloudbuild (@get_model_id quiet (str "a:b"))) m')
    ∧ (true = true → @get_model_id quiet (str "a:b") ≠ str "all" →
       files w' !! build_script_path (str "./build") (@get_model_id quiet (str "a:b"))
       = Some (File (render_build_script (str "./build") (@get_model_id quiet (str "a:b"))) 493)).
Proof.
  apply (@artifact_contents quiet).
  - intros op w. reflexivity.
  - left.
Defined.

(** ** Running the generation again *)

Section Again.
Context `{P : Platform}.












End Again.



(** ** The model named [all] *)

(** X8. With scripts enabled, a model named [all] has the master script's
    path as its build script path.  After a run without faults that file is
    the master script, not the model's build script, and one of its lines
    is its own path: the master script invokes itself. *)
Theorem build_all_clobbers_model_all `{P : Platform} (Hff : fault_free P)
    (models : list pystr) (build_dir : pystr) (w : world) :
  str "all" ∈ models →
  ∃ w' master before after,
    generate_files models build_dir true w = (Ok tt, w')
    ∧ build_script_path build_dir (get_model_id (str "all")) = build_all_path build_dir
    ∧ files w' !! build_script_path build_dir (get_model_id (str "all"))
      = Some (File master 493)
    ∧ master = str "#!/bin/bash" ++ nl ++ str "set -e" ++ nl ++ nl
               ++ concat ((λ model, build_script_path build_dir (get_model_id model) ++ nl)
                          <$> models)
    ∧ master = before ++ (build_all_path build_dir ++ nl) ++ after
    ∧ master ≠ render_build_script build_dir (get_model_id (str "all")).
Proof.
  intros Hin.
  assert (Hall : get_model_id (str "all") = str "all") by (vm_compute; reflexivity).
  apply list_elem_of_split in Hin as (l1 & l2 & Hmodels).
  exists (add_stdout (generate_line <$> models)
            (run_ops (generate_ops models build_dir true) w)),
         (str "#!/bin/bash" ++ nl ++ str "set -e" ++ nl ++ nl
          ++ concat ((λ model, build_script_path build_dir (get_model_id model) ++ nl)
                     <$> models)),
         (str "#!/bin/bash" ++ nl ++ str "set -e" ++ nl ++ nl
          ++ concat ((λ model, build_script_path build_dir (get_model_id model) ++ nl)
                     <$> l1)),
         (concat ((λ model, build_script_path build_dir (get_model_id model) ++ nl) <$> l2)).
  split_and!.
  - apply generate_files_ok, Hff.
  - rewrite Hall. reflexivity.
  - rewrite Hall. change (build_script_path build_dir (str "all")) with (build_all_path build_dir).
    cbn [files add_stdout].
    assert (Hops : ∃ pre_ops,
      generate_ops models build_dir true
      = pre_ops ++ build_all_ops build_dir
                     ((λ model, build_script_path build_dir (get_model_id model)) <$> models)).
    { destruct models as [|x l]; [destruct l1; discriminate|].
      exists (OpMakedirs build_dir :: ((x :: l) ≫= model_ops build_dir true)).
      reflexivity. }
    destruct Hops as [pre_ops ->].
    rewrite run_ops_app, files_run_ops_build_all, <- list_fmap_compose.
    unfold build_all_header. rewrite <- ?app_assoc. reflexivity.
  - reflexivity.
  - rewrite Hmodels, fmap_app, fmap_cons, concat_app. cbn [concat].
    rewrite Hall, <- !app_assoc. reflexivity.
  - intros Heq. apply (f_equal (λ l, l !! 17)) in Heq. vm_compute in Heq. discriminate.
Qed.

Lemma build_all_clobbers_model_all_witness :
  ∃ w' master before after,
    @generate_files quiet [str "gemma:2b"; str "all"] (str "./build") true empty_world
    = (Ok tt, w')
    ∧ build_script_path (str "./build") (@get_model_id quiet (str "all"))
      = build_all_path (str "./build")
    ∧ files w' !! build_script_path (str "./build") (@get_model_id quiet (str "all"))
      = Some (File master 493)
    ∧ master = str "#!/bin/bash" ++ nl ++ str "set -e" ++ nl ++ nl
               ++ concat ((λ model, build_script_path (str "./build")
                                      (@get_model_id quiet model) ++ nl)
                          <$> [str "gemma:2b"; str "all"])
    ∧ master = before ++ (build_all_path (str "./build") ++ nl) ++ after
    ∧ master ≠ render_build_script (str "./build") (@get_model_id quiet (str "all")).
Proof.
  apply (@build_all_clobbers_model_all quiet).
  - intros op w. reflexivity.
  - right. left.
Defined.

(** ** The whole of [main] *)

(** X9. Without [--submit], a run of [main] without faults launches no
    command and prints one line per model and then the three closing lines,
    the second of which names the master script.  With scripts enabled that
    file is there and executable; with [--no-build-scripts] the same run
    has not written it, so the closing lines name a file that this run did
    not create. *)
Theorem main_closing_lines `{P : Platform} (Hff : fault_free P)
    (models_str build_dir : pystr) (no_build_scripts : bool) (w : world) :
  ∃ w',
    main models_str build_dir false no_build_scripts w = (Ok tt, w')
    ∧ stdout w'
      = stdout w
        ++ ((λ model, str "Generating files for model: " ++ model
                      ++ str " (ID: " ++ get_model_id model ++ str ")")
            <$> parse_models models_str)
        ++ [ nl ++ str "Files generated successfully. To submit builds, run:";
             str "  " ++ build_all_path build_dir;
             str "Or specify --submit when running this script" ]
    ∧ procs w' = procs w
    ∧ (no_build_scripts = true →
       files w' !! build_all_path build_dir = files w !! build_all_path build_dir)
    ∧ (no_build_scripts = false →
       ∃ master, files w' !! build_all_path build_dir = Some (File master 493)).
Proof.
  eexists. split_and!.
  - unfold main, bind. cbv zeta. rewrite (generate_files_ok Hff). reflexivity.
  - cbn [stdout print add_stdout]. rewrite stdout_run_ops, <- !app_assoc. reflexivity.
  - cbn [procs print add_stdout]. apply procs_run_ops.
  - intros ->. cbn [files print add_stdout negb].
    apply files_run_ops_untouched.
    rewrite <- filter_not_sh_generate_ops.
    eapply Forall_impl; [apply Forall_filter_not_sh|].
    intros op Hop Hfile. unfold on_sh_file in Hop.
    rewrite Hfile, build_all_path_sh in Hop. discriminate.
  - intros ->. cbn [files print add_stdout negb].
    destruct (parse_models models_str) as [|model models] eqn:E;
      [exfalso; exact (parse_models_not_nil _ E)|].
    assert (Hops : generate_ops (model :: models) build_dir true
                   = (OpMakedirs build_dir :: ((model :: models) ≫= model_ops build_dir true))
                     ++ build_all_ops build_dir
                          ((λ model, build_script_path build_dir (get_model_id model))
                           <$> model :: models)) by reflexivity.
    rewrite Hops, run_ops_app, files_run_ops_build_all. eexists. reflexivity.
Qed.

Lemma main_closing_lines_witness :
  ∃ w',
    @main quiet (str "gemma:2b") (str "./build") false true empty_world = (Ok tt, w')
    ∧ stdout w'
      = stdout empty_world
        ++ ((λ model, str "Generating files for model: " ++ model
                      ++ str " (ID: " ++ @get_model_id quiet model ++ str ")")
            <$> parse_models (str "gemma:2b"))
        ++ [ nl ++ str "Files generated successfully. To submit builds, run:";
             str "  " ++ build_all_path (str "./build");
             str "Or specify --submit when running this script" ]
    ∧ procs w' = procs empty_world
    ∧ (true = true →
       files w' !! build_all_path (str "./build")
       = files empty_world !! build_all_path (str "./build"))
    ∧ (true = false →
       ∃ master, files w' !! build_all_path (str "./build") = Some (File master 493)).
Proof.
  apply (@main_closing_lines quiet). intros op w. reflexivity.
Defined.

(** X10. With [--submit], on a platform without file-system faults where
    the build command can always be started, [main] returns normally
    (whatever the exit statuses), hands to [subprocess.run] one command per
    model in list order, and the configuration file each command names is
    in place, holding the configuration rendered for that model's token. *)
Theorem main_submits_generated_configs `{P : Platform} (Hff : fault_free P)
    (Hsp : always_spawns P) (models_str build_dir : pystr) (no_build_scripts : bool)
    (w : world) :
  ∃ w',
    main models_str build_dir true no_build_scripts w = (Ok tt, w')
    ∧ procs w' = procs w ++ (gcloud_cmd build_dir <$> parse_models models_str)
    ∧ Forall (λ model,
        ∃ config m,
          gcloud_cmd build_dir model
          = [ str "gcloud"; str "builds"; str "submit"; str "--config"; config; build_dir ]
          ∧ files w' !! config = Some (File (render_cloudbuild (get_model_id model)) m))
        (parse_models models_str).
Proof.
  set (w1 := add_stdout (generate_line <$> parse_models models_str)
               (run_ops (generate_ops (parse_models models_str) build_dir
                           (negb no_build_scripts)) w)).
  destruct (submit_builds_total build_dir (parse_models models_str) w1 Hsp)
    as (w' & Hrun & Hprocs).
  destruct (submit_builds_effects (parse_models models_str) build_dir w1)
    as (r & w'' & n & Hrun' & Hfiles & _).
  rewrite Hrun in Hrun'. injection Hrun' as <- <-.
  exists w'. split_and!.
  - unfold main, bind. cbv zeta. rewrite (generate_files_ok Hff). exact Hrun.
  - rewrite Hprocs. unfold w1. cbn [procs add_stdout]. rewrite procs_run_ops. reflexivity.
  - apply Forall_forall. intros model Hmodel.
    destruct (cloudbuild_written (parse_models models_str) model build_dir
                (negb no_build_scripts) w Hmodel) as [m Hm].
    exists (cloudbuild_path build_dir (get_model_id model)), m.
    split; [reflexivity|]. rewrite Hfiles. exact Hm.
Qed.

Lemma main_submits_generated_configs_witness :
  ∃ w',
    @main rejecting (str "gemma:2b, llama3.1") (str "./build") true false empty_world
    = (Ok tt, w')
    ∧ procs w' = procs empty_world
                 ++ (@gcloud_cmd rejecting (str "./build")
                     <$> parse_models (str "gemma:2b, llama3.1"))
    ∧ Forall (λ model,
        ∃ config m,
          @gcloud_cmd rejecting (str "./build") model
          = [ str "gcloud"; str "builds"; str "submit"; str "--config"; config;
              str "./build" ]
          ∧ files w' !! config
            = Some (File (render_cloudbuild (@get_model_id rejecting model)) m))
        (parse_models (str "gemma:2b, llama3.1")).
Proof.
  apply (@main_submits_generated_configs rejecting).
  - intros op w. reflexivity.
  - intros args w. exists 1%Z. reflexivity.
Defined.

(** X11. With [--submit] on a platform without file-system faults where the
    build command cannot be started (no [gcloud]), [main] generates every
    artifact and then fails at the first model: the [OSError] of the launch
    leaves [main], one command has been handed to [subprocess.run], and the
    files are those the generation left. *)
Theorem main_submit_cannot_start `{P : Platform} (Hff : fault_free P)
    (models_str build_dir : pystr) (no_build_scripts : bool) (w : world) (errno : N) :
  (∀ args w0, proc_run args w0 = SpawnFailed errno) →
  ∃ w1 w' first rest,
    parse_models models_str = first :: rest
    ∧ generate_files (parse_models models_str) build_dir (negb no_build_scripts) w
      = (Ok tt, w1)
    ∧ main models_str build_dir true no_build_scripts w = (Raise (OSError errno), w')
    ∧ files w' = files w1
    ∧ procs w' = procs w ++ [gcloud_cmd build_dir first].
Proof.
  intros Hspawn.
  destruct (parse_models models_str) as [|first rest] eqn:E;
    [exfalso; exact (parse_models_not_nil _ E)|].
  eexists _, _, first, rest. split_and!.
  - reflexivity.
  - apply generate_files_ok, Hff.
  - unfold main, bind. cbv zeta. rewrite E, (generate_files_ok Hff).
    unfold submit_builds. cbn [for_in]. unfold bind.
    rewrite (submit_model_spawn_failed _ _ errno) by apply Hspawn. reflexivity.
  - reflexivity.
  - cbn [procs add_stdout]. rewrite procs_run_ops. reflexivity.
Qed.

Lemma main_submit_cannot_start_witness :
  ∃ w1 w' first rest,
    parse_models (str "gemma:2b, llama3.1") = first :: rest
    ∧ @generate_files no_gcloud (parse_models (str "gemma:2b, llama3.1")) (str "./build")
        (negb false) empty_world
      = (Ok tt, w1)
    ∧ @main no_gcloud (str "gemma:2b, llama3.1") (str "./build") true false empty_world
      = (Raise (OSError 2), w')
    ∧ files w' = files w1
    ∧ procs w' = procs empty_world ++ [@gcloud_cmd no_gcloud (str "./build") first].
Proof.
  apply (@main_submit_cannot_start no_gcloud).
  - intros op w. reflexivity.
  - intros args w0. reflexivity.
Defined.

(** ** Pieces of the argument *)

Lemma split_app_sep (sep : N) (a b : pystr) :
  split sep (a ++ sep :: b) = split sep a ++ split sep b.
Proof.
  induction a as [|c a IH].
  - cbn [app split]. rewrite N.eqb_refl. reflexivity.
  - cbn [app split]. destruct (c =? sep)%N; rewrite IH; [reflexivity|].
    destruct (split sep a) as [|h t] eqn:Ea; [exfalso; exact (split_not_nil _ _ Ea)|].
    reflexivity.
Qed.

Lemma lstrip_spaces (k : pystr) : Forall (λ c, isspace c = true) k → lstrip k = [].
Proof.
  intros HF. induction HF as [|c k Hc _ IH]; [reflexivity|]. cbn. rewrite Hc. exact IH.
Qed.

Lemma split_no_sep_id (sep : N) (s : pystr) : sep ∉ s → split sep s = [s].
Proof.
  intros Hs. apply (split_join sep [s]); [discriminate|].
  constructor; [exact Hs | constructor].
Qed.

(** X12. Parsing distributes over a comma: the models of [a,b] are the
    models of [a] followed by those of [b].  A piece of white space only
    (so also an empty one, as a trailing comma or two commas in a row
    leave) is one model, with the empty name. *)
Theorem parse_models_compose (a b : pystr) :
  parse_models (a ++ comma :: b) = parse_models a ++ parse_models b
  ∧ (Forall (λ c, isspace c = true) a → parse_models a = [[]]).
Proof.
  split.
  - unfold parse_models. rewrite split_app_sep, fmap_app. reflexivity.
  - intros Hspace. unfold parse_models. rewrite split_no_sep_id.
    + cbn. unfold strip. rewrite (lstrip_spaces a Hspace). reflexivity.
    + intros Hin. rewrite Forall_forall in Hspace. specialize (Hspace comma Hin).
      discriminate.
Qed.

Lemma parse_models_compose_witness : parse_models (str "  ") = [[]].
Proof.
  apply (proj2 (parse_models_compose (str "  ") [])).
  repeat constructor.
Defined.
